(** * The Vamb command-line driver ([run.py])

    A shallow embedding of the driver script: the argument table handed to
    [argparse], the module-level validation of the parsed arguments, the
    creation of the output directory and the four stage wrappers run by
    [main].  The [vamb] package itself (contig parsing, BAM parsing, the
    encoder and the clustering) is outside the script and enters as an
    interface whose operations either return a value or raise. *)

From Stdlib Require Import ZArith String Ascii List Bool Floats Lia DecimalString.
From stdpp Require Import base option gmap strings.
Import ListNotations.

Local Open Scope string_scope.
Local Open Scope Z_scope.
Local Set Warnings "-register-all".

(** ** Characters and decimal numerals *)

Definition nl : string := String (ascii_of_nat 10) "".
Definition tab : string := String (ascii_of_nat 9) "".

(** [str(n)] for a Python [int]. *)
Definition str_of_Z (n : Z) : string := NilZero.string_of_int (Z.to_int n).

(** ** [posixpath] *)

Module Posixpath.

Definition sep : ascii := "/"%char.

(** [p.rfind(c)]: the last index of [c] in [p], or [-1]. *)
Fixpoint rfind (c : ascii) (p : string) : Z :=
  match p with
  | EmptyString => -1
  | String a s =>
      let i := rfind c s in
      if 0 <=? i then i + 1
      else if Ascii.eqb a c then 0 else -1
  end.

(** [c * n] *)
Fixpoint replicate_char (c : ascii) (n : nat) : string :=
  match n with
  | O => ""
  | S k => String c (replicate_char c k)
  end.

(** [s.rstrip(c)] *)
Fixpoint rstrip (c : ascii) (s : string) : string :=
  match s with
  | EmptyString => ""
  | String a r =>
      match rstrip c r with
      | EmptyString => if Ascii.eqb a c then "" else String a ""
      | r' => String a r'
      end
  end.

Definition startswith (c : ascii) (s : string) : bool :=
  match s with
  | String a _ => Ascii.eqb a c
  | EmptyString => false
  end.

Fixpoint endswith (c : ascii) (s : string) : bool :=
  match s with
  | EmptyString => false
  | String a EmptyString => Ascii.eqb a c
  | String _ r => endswith c r
  end.

(** [os.path.dirname(p)]:
<<
    i = p.rfind(sep) + 1
    head = p[:i]
    if head and head != sep*len(head):
        head = head.rstrip(sep)
    return head
>> *)
Definition dirname (p : string) : string :=
  let i := rfind sep p + 1 in
  let head := substring 0 (Z.to_nat i) p in
  if negb (String.eqb head "")
     && negb (String.eqb head (replicate_char sep (String.length head)))
  then rstrip sep head
  else head.

(** [os.path.join(a, b)] for one component [b]:
<<
    if b.startswith(sep): path = b
    elif not path or path.endswith(sep): path += b
    else: path += sep + b
>> *)
Definition join (a b : string) : string :=
  if startswith sep b then b
  else if String.eqb a "" || endswith sep a then a ++ b
  else a ++ String sep b.

End Posixpath.

(** ** Python values, messages and exceptions *)

(** The values an attribute of the parsed arguments can hold, and [PyTime]
    for a reading of the clock ([time.time()], [datetime.datetime.now()]),
    whose value is not modelled. *)
Inductive pyvalue : Type :=
| PyInt (n : Z)
| PyFloat (x : float)
| PyBool (b : bool)
| PyStr (s : string)
| PyList (l : list pyvalue)
| PyTime.

(** [template.format(args...)], kept unevaluated: the text of a message
    is its template with each [{}] standing for the next argument. *)
Record message : Type := Format { template : string; format_args : list pyvalue }.

Definition text (s : string) : message := Format s [].

Inductive exn : Type :=
| FileExistsError (arg : string)
| NotADirectoryError (arg : string)
| FileNotFoundError (arg : string)
| IsADirectoryError (arg : string)
| ArgumentTypeError (msg : message)
| AttributeError (msg : message)
| ModuleNotFoundError (msg : message)
| ValueError (msg : message)
| TypeError (msg : message)
| SystemExit (code : Z)
| OtherError (name : string) (msg : message).

(** ** The file system, as far as the script looks at it

    A path is taken as written: two spellings of one location are two keys.
    Of the ways an operation can fail, those that depend on what the file
    system holds are modelled (an entry that is there, a parent that is
    not); permissions, quotas and the like are not. *)

Inductive ftype : Type := Dir | File.

Abbreviation fs := (gmap string ftype).

Module OS.

Definition path_exists (p : string) (d : fs) : bool :=
  match d !! p with Some _ => true | None => false end.

Definition path_isdir (p : string) (d : fs) : bool :=
  match d !! p with Some Dir => true | _ => false end.

Definition path_isfile (p : string) (d : fs) : bool :=
  match d !! p with Some File => true | _ => false end.

(** What stands in the way of making the entry [p]: the empty path names
    nothing, and the directory [p] is to be made in must be there.  That
    directory is the part of [p] before its last component, separators at
    the end of [p] not counting; when that part is empty it is the working
    directory and when it is made of separators only it is the root, and
    both are there. *)
Definition parent_error (p : string) (d : fs) : option exn :=
  if String.eqb p "" then Some (FileNotFoundError p)
  else
    let parent := Posixpath.dirname (Posixpath.rstrip Posixpath.sep p) in
    if String.eqb parent (Posixpath.replicate_char Posixpath.sep (String.length parent))
    then None
    else match d !! parent with
         | Some Dir => None
         | Some File => Some (NotADirectoryError p)
         | None => Some (FileNotFoundError p)
         end.

(** [os.mkdir(p)] *)
Definition mkdir (p : string) (d : fs) : exn + fs :=
  if path_exists p d then inl (FileExistsError p)
  else match parent_error p d with
       | Some e => inl e
       | None => inr (<[p := Dir]> d)
       end.

(** [open(p, 'w')]: the file is created or truncated. *)
Definition open_w (p : string) (d : fs) : exn + fs :=
  if path_isdir p d then inl (IsADirectoryError p)
  else match parent_error p d with
       | Some e => inl e
       | None => inr (<[p := File]> d)
       end.

(** [open(p, 'rb')] *)
Definition open_rb (p : string) (d : fs) : exn + fs :=
  match d !! p with
  | Some File => inr d
  | Some Dir => inl (IsADirectoryError p)
  | None => inl (FileNotFoundError p)
  end.

End OS.

(** ** What a run leaves behind: the trace *)

(** The operations the script performs on the outside world.  The matrices
    handed to the collaborators are left out of the record of a call; its
    scalar arguments and paths are kept, and for [write_npz] which of the
    three matrices it was given. *)
Inductive array : Type := TnfsArray | RpkmsArray | LatentArray.

Inductive call : Type :=
| CallPrintHelp
| CallMkdir (path : string)
| CallOpen (path mode : string)
| CallReadContigs (path : string) (minlength : Z)
| CallWriteNpz (path : string) (a : array)
| CallReadBamfiles (paths : list string) (minascore minlength subprocesses : Z)
| CallTrainVae (nhiddens : list Z) (nlatent nepochs batchsize : Z) (cuda : bool)
               (capacity mseratio : float) (modelfile : string)
| CallEncode
| CallCluster
| CallWriteClusters (path : string) (max_clusters min_size : Z).

Inductive event : Type :=
| Print (line : message)                   (* print(..., file=logfile) *)
| Call (c : call) (raised : option exn).   (* an outside operation and how it ended *)

(** ** The monad of the script: a file system threaded through, an exception
       or a value returned, the events emitted on the way *)

Record run (A : Type) : Type :=
  Run { result : exn + A; disk : fs; events : list event }.
Arguments Run {A} _ _ _.
Arguments result {A} _.
Arguments disk {A} _.
Arguments events {A} _.

Definition M (A : Type) : Type := fs -> run A.

Definition ret {A} (a : A) : M A := fun d => Run (inr a) d [].

Definition raise {A} (e : exn) : M A := fun d => Run (inl e) d [].

Definition bind {A B} (m : M A) (k : A -> M B) : M B := fun d =>
  let r := m d in
  match result r with
  | inl e => Run (inl e) (disk r) (events r)
  | inr a => let r' := k a (disk r) in
             Run (result r') (disk r') (events r ++ events r')
  end.

Declare Scope script_scope.
Delimit Scope script_scope with script.
Notation "x <- m ;; k" := (bind m (fun x => k))
  (at level 100, m at next level, right associativity) : script_scope.
Notation "m ;; k" := (bind m (fun _ => k))
  (at level 100, right associativity) : script_scope.
Local Open Scope script_scope.

Definition raised {A} (r : exn + A) : option exn :=
  match r with inl e => Some e | inr _ => None end.

(** A value computed without touching the world, or an exception. *)
Definition lift {A} (r : exn + A) : M A := fun d => Run r d [].

(** A look at the file system. *)
Definition ask {A} (f : fs -> A) : M A := fun d => Run (inr (f d)) d [].

(** A call into a collaborator. *)
Definition extern {A} (c : call) (r : exn + A) : M A :=
  fun d => Run r d [Call c (raised r)].

(** A call into the operating system. *)
Definition os_op (c : call) (f : fs -> exn + fs) : M unit := fun d =>
  match f d with
  | inl e => Run (inl e) d [Call c (Some e)]
  | inr d' => Run (inr tt) d' [Call c None]
  end.

Definition print (line : message) : M unit := fun d => Run (inr tt) d [Print line].

(** The run [r] seen from a point where [evs] had already happened. *)
Definition after {A} (evs : list event) (r : run A) : run A :=
  Run (result r) (disk r) (evs ++ events r).

(** [if cond: raise e] *)
Definition raise_if (cond : bool) (e : exn) : M unit :=
  if cond then raise e else ret tt.

(** [for x in xs: body(x)] *)
Fixpoint for_each {A} (xs : list A) (body : A -> M unit) : M unit :=
  match xs with
  | [] => ret tt
  | x :: rest => body x ;; for_each rest body
  end.

(** ** The [vamb] package, as the script uses it

    Every operation is a function of the arguments the script passes and either
    returns or raises.  The types of the matrices, of the model and of the
    cluster iterator are the package's. *)

Class Vamb : Type := {
  Tnfs : Type;
  Rpkms : Type;
  Latent : Type;
  VAE : Type;
  DataLoader : Type;
  Clusters : Type;
  (** [vamb.__version__] *)
  version : list Z;
  (** [len(rpkms)]: the number of rows *)
  len_rpkms : Rpkms -> nat;
  (** [contiglengths.sum()]: the sum as the array of lengths computes it, in
      the integer type the package gave the array *)
  sum_contiglengths : list Z -> Z;
  (** [vamb.parsecontigs.read_contigs(file, minlength=...)] *)
  read_contigs : string -> Z -> exn + (Tnfs * list string * list Z);
  (** [vamb.parsebam.read_bamfiles(paths, minscore, minlength, subprocesses)] *)
  read_bamfiles : list string -> Z -> Z -> Z -> exn + Rpkms;
  (** [vamb.vambtools.write_npz(path, array)], once per kind of array *)
  write_npz_tnfs : string -> Tnfs -> exn + unit;
  write_npz_rpkms : string -> Rpkms -> exn + unit;
  write_npz_latent : string -> Latent -> exn + unit;
  (** [vamb.encode.trainvae(rpkms, tnfs, nhiddens=..., ..., modelfile=...)] *)
  encode_trainvae : Rpkms -> Tnfs -> list Z -> Z -> Z -> Z -> bool -> float -> float ->
                    string -> exn + (VAE * DataLoader);
  (** [vae.encode(dataloader)] *)
  vae_encode : VAE -> DataLoader -> exn + Latent;
  (** [vamb.cluster.cluster(latent, labels=...)] *)
  cluster_cluster : Latent -> list string -> exn + Clusters;
  (** [vamb.cluster.write_clusters(file, clusters, max_clusters=..., min_size=...)] *)
  write_clusters : string -> Clusters -> Z -> Z -> exn + (Z * Z)
}.

(** What the interpreter finds on the machine. *)
Record Env : Type := {
  cpu_count : option Z;        (* os.cpu_count() *)
  cuda_is_available : bool     (* torch.cuda.is_available() *)
}.

(** ** The argument table *)

Module Argparse.

(** What [parse_args] returns: one attribute per [dest]. *)
Record Namespace : Type := {
  outdir : string;
  fasta : string;
  bamfiles : list string;
  minlength : Z;
  minascore : Z;
  subprocesses : Z;
  nhiddens : list Z;
  nlatent : Z;
  nepochs : Z;
  batchsize : Z;
  capacity : float;
  mseratio : float;
  cuda : bool;
  tandem : bool;
  minsize : Z;
  maxclusters : Z
}.

(** An option as it was given on the command line, its value already
    converted by the [type=] of its declaration.  [-n] takes one value or
    more ([nargs='+']). *)
Inductive optarg : Type :=
| opt_h
| opt_m (v : Z)
| opt_a (v : Z)
| opt_p (v : Z)
| opt_n (v : Z) (vs : list Z)
| opt_l (v : Z)
| opt_e (v : Z)
| opt_b (v : Z)
| opt_s (v : float)
| opt_r (v : float)
| opt_cuda
| opt_tandem
| opt_i (v : Z)
| opt_c (v : Z).

(** A command line: the three positional arguments ([bamfiles] takes one
    path or more) and the options in the order they were given. *)
Record cli : Type := {
  cli_outdir : string;
  cli_fasta : string;
  cli_bamfile : string;
  cli_bamfiles : list string;
  cli_options : list optarg
}.

(** The value of a [dest]: that of the last option that sets it, or the
    default of the declaration. *)
Definition stored {A} (sel : optarg -> option A) (default : A) (os : list optarg) : A :=
  fold_left (fun acc o => match sel o with Some v => v | None => acc end) os default.

Definition is_help (o : optarg) : bool :=
  match o with opt_h => true | _ => false end.

Definition is_tandem (o : optarg) : bool :=
  match o with opt_tandem => true | _ => false end.

Definition parse_args (DEFAULT_PROCESSES : Z) (c : cli) : exn + Namespace :=
  let os := cli_options c in
  if existsb is_help os then inl (SystemExit 0)
  else inr {|
    outdir := cli_outdir c;
    fasta := cli_fasta c;
    bamfiles := cli_bamfile c :: cli_bamfiles c;
    minlength := stored (fun o => match o with opt_m v => Some v | _ => None end) 100 os;
    minascore := stored (fun o => match o with opt_a v => Some v | _ => None end) 50 os;
    subprocesses :=
      stored (fun o => match o with opt_p v => Some v | _ => None end) DEFAULT_PROCESSES os;
    nhiddens :=
      stored (fun o => match o with opt_n v vs => Some (v :: vs) | _ => None end)
             [325; 325; 325] os;
    nlatent := stored (fun o => match o with opt_l v => Some v | _ => None end) 40 os;
    nepochs := stored (fun o => match o with opt_e v => Some v | _ => None end) 400 os;
    batchsize := stored (fun o => match o with opt_b v => Some v | _ => None end) 128 os;
    capacity := stored (fun o => match o with opt_s v => Some v | _ => None end) 1000%float os;
    mseratio :=
      stored (fun o => match o with opt_r v => Some v | _ => None end)
             0x1.999999999999ap-3%float (* 0.2 *) os;
    cuda := stored (fun o => match o with opt_cuda => Some true | _ => None end) false os;
    tandem := stored (fun o => match o with opt_tandem => Some true | _ => None end) false os;
    minsize := stored (fun o => match o with opt_i v => Some v | _ => None end) 1 os;
    maxclusters := stored (fun o => match o with opt_c v => Some v | _ => None end) (-1) os
  |}.

(** [vars(args)] *)
Definition vars (a : Namespace) : list (string * pyvalue) :=
  [ ("outdir", PyStr (outdir a));
    ("fasta", PyStr (fasta a));
    ("bamfiles", PyList (map PyStr (bamfiles a)));
    ("minlength", PyInt (minlength a));
    ("minascore", PyInt (minascore a));
    ("subprocesses", PyInt (subprocesses a));
    ("nhiddens", PyList (map PyInt (nhiddens a)));
    ("nlatent", PyInt (nlatent a));
    ("nepochs", PyInt (nepochs a));
    ("batchsize", PyInt (batchsize a));
    ("capacity", PyFloat (capacity a));
    ("mseratio", PyFloat (mseratio a));
    ("cuda", PyBool (cuda a));
    ("tandem", PyBool (tandem a));
    ("minsize", PyInt (minsize a));
    ("maxclusters", PyInt (maxclusters a)) ].

Fixpoint lookup_attr (name : string) (l : list (string * pyvalue)) : option pyvalue :=
  match l with
  | [] => None
  | (k, v) :: rest => if String.eqb k name then Some v else lookup_attr name rest
  end.

(** [args.name] for a name the script spells out; an attribute the parser
    never set raises. *)
Definition getattr (a : Namespace) (name : string) : exn + pyvalue :=
  match lookup_attr name (vars a) with
  | Some v => inr v
  | None => inl (AttributeError
                   (Format "'Namespace' object has no attribute '{}'" [PyStr name]))
  end.

End Argparse.
Import Argparse.

(** [min(v)] of a list of integers; other arguments are not needed here. *)
Fixpoint ints_of (l : list pyvalue) : option (list Z) :=
  match l with
  | [] => Some []
  | PyInt n :: rest => option_map (cons n) (ints_of rest)
  | _ :: _ => None
  end.

Definition py_min (v : pyvalue) : exn + pyvalue :=
  match v with
  | PyList l =>
      match ints_of l with
      | Some (x :: rest) => inr (PyInt (fold_left (fun m n => if n <? m then n else m) rest x))
      | Some [] => inl (ValueError (text "min() arg is an empty sequence"))
      | None => inl (OtherError "NotModelled" (text "min() of values that are not integers"))
      end
  | _ => inl (TypeError (text "object is not iterable"))
  end.

(** ** The script *)

(** [DEFAULT_PROCESSES = min(os.cpu_count(), 8)]; [os.cpu_count()] is [None]
    when the number of processors cannot be determined. *)
Definition DEFAULT_PROCESSES (env : Env) : exn + Z :=
  match cpu_count env with
  | Some n => inr (if 8 <? n then 8 else n)
  | None => inl (TypeError
                   (text "'<' not supported between instances of 'int' and 'NoneType'"))
  end.

Definition mismatch_message : message :=
  text ("Number of FASTA vs BAM file headers do not match. "
        ++ "Are you sure the BAM files originate from same FASTA file "
        ++ "and have headers?").

(** How the script was started. *)
Inductive invocation : Type :=
| NoArguments                 (* len(sys.argv) == 1 *)
| CommandLine (c : cli).

Section Pipeline.

Context {V : Vamb}.

Definition calc_tnf (outdir fastapath : string) (mincontiglength : Z)
  : M (Tnfs * list string) :=
  print (text (nl ++ "Calculating TNF")) ;;
  os_op (CallOpen fastapath "rb") (OS.open_rb fastapath) ;;
  r <- extern (CallReadContigs fastapath mincontiglength)
              (read_contigs fastapath mincontiglength) ;;
  let '(tnfs, contignames, contiglengths) := r in
  extern (CallWriteNpz (Posixpath.join outdir "tnf.npz") TnfsArray)
         (write_npz_tnfs (Posixpath.join outdir "tnf.npz") tnfs) ;;
  let ncontigs := Z.of_nat (length contiglengths) in
  let nbases := sum_contiglengths contiglengths in
  print (Format (tab ++ "Processed {} bases in {} contigs") [PyInt nbases; PyInt ncontigs]) ;;
  print (Format (tab ++ "Calculated TNF in {} seconds.") [PyTime]) ;;
  ret (tnfs, contignames).

Definition calc_rpkm (outdir : string) (bampaths : list string)
    (mincontiglength minalignscore subprocesses : Z) (ncontigs : nat) : M Rpkms :=
  print (text (nl ++ "Calculating RPKM")) ;;
  print (Format (tab ++ "Parsing {} BAM files with {} subprocesses.")
                [PyInt (Z.of_nat (length bampaths)); PyInt subprocesses]) ;;
  rpkms <- extern (CallReadBamfiles bampaths minalignscore mincontiglength subprocesses)
                  (read_bamfiles bampaths minalignscore mincontiglength subprocesses) ;;
  raise_if (negb (Nat.eqb (len_rpkms rpkms) ncontigs)) (ValueError mismatch_message) ;;
  extern (CallWriteNpz (Posixpath.join outdir "rpkm.npz") RpkmsArray)
         (write_npz_rpkms (Posixpath.join outdir "rpkm.npz") rpkms) ;;
  print (Format (tab ++ "Calculated RPKM in {} seconds.") [PyTime]) ;;
  ret rpkms.

Definition trainvae (outdir : string) (rpkms : Rpkms) (tnfs : Tnfs)
    (nhiddens : list Z) (nlatent nepochs batchsize : Z) (cuda : bool)
    (capacity mseratio : float) : M Latent :=
  print (text (nl ++ "Training VAE")) ;;
  let modelpath := Posixpath.join outdir "model.pt" in
  r <- extern (CallTrainVae nhiddens nlatent nepochs batchsize cuda capacity mseratio modelpath)
              (encode_trainvae rpkms tnfs nhiddens nlatent nepochs batchsize cuda
                               capacity mseratio modelpath) ;;
  let '(vae, dataloader) := r in
  latent <- extern CallEncode (vae_encode vae dataloader) ;;
  extern (CallWriteNpz (Posixpath.join outdir "latent.npz") LatentArray)
         (write_npz_latent (Posixpath.join outdir "latent.npz") latent) ;;
  print (Format (nl ++ tab ++ "Trained VAE and encoded in {} seconds.") [PyTime]) ;;
  ret latent.

Definition cluster (outdir : string) (latent : Latent) (contignames : list string)
    (maxclusters minclustersize : Z) : M unit :=
  print (text (nl ++ "Clustering")) ;;
  clusteriterator <- extern CallCluster (cluster_cluster latent contignames) ;;
  let clusterspath := Posixpath.join outdir "clusters.tsv" in
  os_op (CallOpen clusterspath "w") (OS.open_w clusterspath) ;;
  r <- extern (CallWriteClusters clusterspath maxclusters minclustersize)
              (write_clusters clusterspath clusteriterator maxclusters minclustersize) ;;
  let '(clusternumber, ncontigs) := r in
  print (Format (tab ++ "Clustered {} contigs in {} bins.") [PyInt ncontigs; PyInt clusternumber]) ;;
  print (Format (tab ++ "Clustered contigs in {} seconds.") [PyTime]) ;;
  ret tt.

Definition main (outdir fastapath : string) (bampaths : list string)
    (mincontiglength minalignscore subprocesses : Z)
    (nhiddens : list Z) (nlatent nepochs batchsize : Z) (cuda : bool)
    (capacity mseratio : float) (minclustersize maxclusters : Z) : M unit :=
  (* print('Starting Vamb version ', '.'.join(map(str, vamb.__version__))):
     the two arguments are written with a space between them *)
  print (Format "Starting Vamb version  {}"
                [PyStr (String.concat "." (map str_of_Z version))]) ;;
  print (Format (tab ++ "Date and time is {}") [PyTime]) ;;
  (* Get TNFs, save as npz *)
  r <- calc_tnf outdir fastapath mincontiglength ;;
  let '(tnfs, contignames) := r in
  (* Parse BAMs, save as npz *)
  rpkms <- calc_rpkm outdir bampaths mincontiglength minalignscore subprocesses
                     (length contignames) ;;
  (* Train, save model *)
  latent <- trainvae outdir rpkms tnfs nhiddens nlatent nepochs batchsize cuda
                     capacity mseratio ;;
  (* Cluster, save tsv file *)
  cluster outdir latent contignames maxclusters minclustersize ;;
  print (Format (nl ++ "Completed Vamb in {} seconds.") [PyTime]) ;;
  ret tt.

(** The checks between [parse_args] and [os.mkdir], in the order of the script. *)
Definition validate (env : Env) (args : Namespace) : M unit :=
  (* Outdir does not exist *)
  e <- ask (OS.path_exists (outdir args)) ;;
  raise_if e (FileExistsError (outdir args)) ;;
  (* Outdir is in an existing parent dir *)
  let parentdir := Posixpath.dirname (outdir args) in
  d <- ask (OS.path_isdir parentdir) ;;
  raise_if (negb (String.eqb parentdir "") && negb d) (NotADirectoryError parentdir) ;;
  (* Contigs exists *)
  f <- ask (OS.path_isfile (fasta args)) ;;
  raise_if (negb f) (FileNotFoundError (fasta args)) ;;
  (* All bamfiles exists *)
  for_each (bamfiles args) (fun bampath =>
    b <- ask (OS.path_isfile bampath) ;;
    raise_if (negb b) (FileNotFoundError bampath)) ;;
  raise_if (minlength args <? 100)
           (ArgumentTypeError (text "Minimum contig length must be at least 100")) ;;
  raise_if (subprocesses args <? 1)
           (ArgumentTypeError (text "Zero or negative subprocesses requested.")) ;;
  raise_if (minascore args <? 0)
           (ArgumentTypeError (text "Minimum alignment score cannot be negative")) ;;
  (if existsb (fun i => i <? 1) (nhiddens args)
   then hidden <- lift (getattr args "hidden") ;;
        least <- lift (py_min hidden) ;;
        raise (ArgumentTypeError (Format "Minimum 1 neuron per layer, not {}" [least]))
   else ret tt) ;;
  (if nlatent args <? 1
   then latent <- lift (getattr args "latent") ;;
        raise (ArgumentTypeError (Format "Minimum 1 latent neuron, not {}" [latent]))
   else ret tt) ;;
  raise_if (nepochs args <? 1)
           (ArgumentTypeError (Format "Minimum 1 epoch, not {}" [PyInt (nepochs args)])) ;;
  raise_if (batchsize args <? 1)
           (ArgumentTypeError (Format "Minimum batchsize of 1, not {}"
                                      [PyInt (batchsize args)])) ;;
  raise_if (PrimFloat.ltb (capacity args) 0)
           (ArgumentTypeError (text "Capacity cannot be negative")) ;;
  raise_if (PrimFloat.leb (mseratio args) 0 || PrimFloat.leb 1 (mseratio args))
           (ArgumentTypeError (text "MSE ratio must be above 0 and below 1")) ;;
  raise_if (cuda args && negb (cuda_is_available env))
           (ModuleNotFoundError (text "Cuda is not available for PyTorch")) ;;
  raise_if (minsize args <? 1)
           (ArgumentTypeError (text "Minimum cluster size must be at least 0.")).

(** What follows the checks: the output directory, the log file and [main]. *)
Definition run_program (args : Namespace) : M unit :=
  os_op (CallMkdir (outdir args)) (OS.mkdir (outdir args)) ;;
  let logpath := Posixpath.join (outdir args) "log.txt" in
  os_op (CallOpen logpath "w") (OS.open_w logpath) ;;
  main (outdir args) (fasta args) (bamfiles args)
       (minlength args) (minascore args) (subprocesses args)
       (nhiddens args) (nlatent args) (nepochs args) (batchsize args) (cuda args)
       (capacity args) (mseratio args) (minsize args) (maxclusters args).

(** The module, top to bottom. *)
Definition script (env : Env) (inv : invocation) : M unit :=
  default_processes <- lift (DEFAULT_PROCESSES env) ;;
  match inv with
  | NoArguments =>
      extern CallPrintHelp (inr tt) ;;
      raise (SystemExit 0)
  | CommandLine c =>
      args <- lift (parse_args default_processes c) ;;
      validate env args ;;
      run_program args
  end.

End Pipeline.

(** ** Reading a trace *)

Inductive stage : Type := Features | Coverage | Embedding | Clustering.

(** The line a stage wrapper prints first. *)
Definition header (s : stage) : message :=
  match s with
  | Features => text (nl ++ "Calculating TNF")
  | Coverage => text (nl ++ "Calculating RPKM")
  | Embedding => text (nl ++ "Training VAE")
  | Clustering => text (nl ++ "Clustering")
  end.

(** The wrapper of [main] a call is made from. *)
Definition stage_of_call (c : call) : option stage :=
  match c with
  | CallOpen _ mode => if String.eqb mode "rb" then Some Features else Some Clustering
  | CallReadContigs _ _ => Some Features
  | CallWriteNpz _ TnfsArray => Some Features
  | CallReadBamfiles _ _ _ _ => Some Coverage
  | CallWriteNpz _ RpkmsArray => Some Coverage
  | CallTrainVae _ _ _ _ _ _ _ _ => Some Embedding
  | CallEncode => Some Embedding
  | CallWriteNpz _ LatentArray => Some Embedding
  | CallCluster => Some Clustering
  | CallWriteClusters _ _ _ => Some Clustering
  | CallPrintHelp | CallMkdir _ => None
  end.









Definition is_trainvae_call (e : event) : bool :=
  match e with Call (CallTrainVae _ _ _ _ _ _ _ _) _ => true | _ => false end.

(** A call of [write_npz] on the matrix [a], whatever became of it. *)
Definition is_write_npz (a : array) (e : event) : bool :=
  match e, a with
  | Call (CallWriteNpz _ TnfsArray) _, TnfsArray
  | Call (CallWriteNpz _ RpkmsArray) _, RpkmsArray
  | Call (CallWriteNpz _ LatentArray) _, LatentArray => true
  | _, _ => false
  end.

(** Whether a message names the number [n]: its decimal numeral occurs in the
    template, or [n] is one of the formatted arguments. *)
Definition names_number (n : nat) (m : message) : bool :=
  match String.index 0 (str_of_Z (Z.of_nat n)) (template m) with
  | Some _ => true
  | None => existsb (fun v => match v with
                              | PyInt k => k =? Z.of_nat n
                              | _ => false
                              end) (format_args m)
  end.

Definition message_of (e : exn) : message :=
  match e with
  | FileExistsError a | NotADirectoryError a | FileNotFoundError a | IsADirectoryError a =>
      text a
  | ArgumentTypeError m | AttributeError m | ModuleNotFoundError m | ValueError m
  | TypeError m | OtherError _ m => m
  | SystemExit c => Format "{}" [PyInt c]
  end.

(** A path without a directory part: no separator in it. *)
Fixpoint bare_name (p : string) : bool :=
  match p with
  | EmptyString => true
  | String a r => negb (Ascii.eqb a Posixpath.sep) && bare_name r
  end.

(** Two command lines that differ only in where and whether [--tandem] is given. *)
Definition without_tandem (c : cli) : cli :=
  {| cli_outdir := cli_outdir c; cli_fasta := cli_fasta c;
     cli_bamfile := cli_bamfile c; cli_bamfiles := cli_bamfiles c;
     cli_options := List.filter (fun o => negb (is_tandem o)) (cli_options c) |}.

Definition differ_only_in_tandem (c1 c2 : cli) : Prop :=
  without_tandem c1 = without_tandem c2.

(** The parsed arguments with the attribute [tandem] set to [b]. *)
Definition with_tandem (b : bool) (a : Namespace) : Namespace :=
  {| outdir := outdir a; fasta := fasta a; bamfiles := bamfiles a;
     minlength := minlength a; minascore := minascore a;
     subprocesses := subprocesses a; nhiddens := nhiddens a;
     nlatent := nlatent a; nepochs := nepochs a; batchsize := batchsize a;
     capacity := capacity a; mseratio := mseratio a; cuda := cuda a;
     tandem := b; minsize := minsize a; maxclusters := maxclusters a |}.

(** The parsed arguments of a command line without options, on a machine
    where [DEFAULT_PROCESSES] is [processes]. *)
Definition default_namespace (processes : Z) (o f b : string) (bs : list string)
  : Namespace :=
  {| outdir := o; fasta := f; bamfiles := b :: bs;
     minlength := 100; minascore := 50; subprocesses := processes;
     nhiddens := [325; 325; 325]; nlatent := 40; nepochs := 400; batchsize := 128;
     capacity := 1000%float; mseratio := 0x1.999999999999ap-3%float (* 0.2 *);
     cuda := false; tandem := false; minsize := 1; maxclusters := -1 |}.

(** ** The checks as one case distinction

    [checks env args d] is the exception the first failing check raises on
    the file system [d], or [inr tt]; [validate_checks] below shows that
    [validate] computes it and touches nothing. *)

Definition no_attribute (name : string) : exn :=
  AttributeError (Format "'Namespace' object has no attribute '{}'" [PyStr name]).

Definition checks (env : Env) (args : Namespace) (d : fs) : exn + unit :=
  if OS.path_exists (outdir args) d then inl (FileExistsError (outdir args))
  else if negb (String.eqb (Posixpath.dirname (outdir args)) "")
          && negb (OS.path_isdir (Posixpath.dirname (outdir args)) d)
  then inl (NotADirectoryError (Posixpath.dirname (outdir args)))
  else if negb (OS.path_isfile (fasta args) d) then inl (FileNotFoundError (fasta args))
  else match List.find (fun p => negb (OS.path_isfile p d)) (bamfiles args) with
  | Some p => inl (FileNotFoundError p)
  | None =>
  if minlength args <? 100
  then inl (ArgumentTypeError (text "Minimum contig length must be at least 100"))
  else if subprocesses args <? 1
  then inl (ArgumentTypeError (text "Zero or negative subprocesses requested."))
  else if minascore args <? 0
  then inl (ArgumentTypeError (text "Minimum alignment score cannot be negative"))
  else if existsb (fun i => i <? 1) (nhiddens args) then inl (no_attribute "hidden")
  else if nlatent args <? 1 then inl (no_attribute "latent")
  else if nepochs args <? 1
  then inl (ArgumentTypeError (Format "Minimum 1 epoch, not {}" [PyInt (nepochs args)]))
  else if batchsize args <? 1
  then inl (ArgumentTypeError (Format "Minimum batchsize of 1, not {}" [PyInt (batchsize args)]))
  else if PrimFloat.ltb (capacity args) 0
  then inl (ArgumentTypeError (text "Capacity cannot be negative"))
  else if PrimFloat.leb (mseratio args) 0 || PrimFloat.leb 1 (mseratio args)
  then inl (ArgumentTypeError (text "MSE ratio must be above 0 and below 1"))
  else if cuda args && negb (cuda_is_available env)
  then inl (ModuleNotFoundError (text "Cuda is not available for PyTorch"))
  else if minsize args <? 1
  then inl (ArgumentTypeError (text "Minimum cluster size must be at least 0."))
  else inr tt
  end.

(** What the checks ask of the arguments and of the file system. *)
Definition acceptable (env : Env) (args : Namespace) (d : fs) : Prop :=
  OS.path_exists (outdir args) d = false
  /\ (Posixpath.dirname (outdir args) = ""
      \/ OS.path_isdir (Posixpath.dirname (outdir args)) d = true)
  /\ OS.path_isfile (fasta args) d = true
  /\ (forall p, In p (bamfiles args) -> OS.path_isfile p d = true)
  /\ 100 <= minlength args
  /\ 1 <= subprocesses args
  /\ 0 <= minascore args
  /\ (forall i, In i (nhiddens args) -> 1 <= i)
  /\ 1 <= nlatent args
  /\ 1 <= nepochs args
  /\ 1 <= batchsize args
  /\ PrimFloat.ltb (capacity args) 0 = false
  /\ PrimFloat.leb (mseratio args) 0 = false
  /\ PrimFloat.leb 1 (mseratio args) = false
  /\ (cuda args = true -> cuda_is_available env = true)
  /\ 1 <= minsize args.

(** The checks that come before the ones on the training options. *)
Definition passes_io_checks (args : Namespace) (d : fs) : bool :=
  negb (OS.path_exists (outdir args) d)
  && (String.eqb (Posixpath.dirname (outdir args)) ""
      || OS.path_isdir (Posixpath.dirname (outdir args)) d)
  && OS.path_isfile (fasta args) d
  && forallb (fun p => OS.path_isfile p d) (bamfiles args)
  && (100 <=? minlength args) && (1 <=? subprocesses args) && (0 <=? minascore args).

(** ** A small instance of the package, for concrete runs

    [contigs] sequences of 150 bases each come out of the FASTA file, the BAM
    files yield [rows] rows unless [bam_failure] is raised, and every other
    operation succeeds. *)

Definition toy_vamb (contigs rows : nat) (bam_failure : option exn) : Vamb := {|
  Tnfs := nat;
  Rpkms := nat;
  Latent := nat;
  VAE := unit;
  DataLoader := unit;
  Clusters := list string;
  version := [1; 0; 1];
  len_rpkms := fun r => r;
  sum_contiglengths := fun lengths => fold_left Z.add lengths 0;
  read_contigs := fun _ _ =>
    inr (contigs, map (fun i => "contig" ++ str_of_Z (Z.of_nat i)) (seq 1 contigs),
         repeat 150 contigs);
  read_bamfiles := fun _ _ _ _ =>
    match bam_failure with Some e => inl e | None => inr rows end;
  write_npz_tnfs := fun _ _ => inr tt;
  write_npz_rpkms := fun _ _ => inr tt;
  write_npz_latent := fun _ _ => inr tt;
  encode_trainvae := fun _ _ _ _ _ _ _ _ _ _ => inr (tt, tt);
  vae_encode := fun _ _ => inr 0%nat;
  cluster_cluster := fun _ names => inr names;
  write_clusters := fun _ names _ _ => inr (1, Z.of_nat (length names))
|}.

Definition toy_env : Env := {| cpu_count := Some 4; cuda_is_available := false |}.

(** A working directory holding the FASTA file and one BAM file. *)
Definition toy_disk : fs := <["contigs.fna" := File]> (<["sample.bam" := File]> ∅).

Definition toy_cli (options : list optarg) : cli :=
  {| cli_outdir := "out"; cli_fasta := "contigs.fna";
     cli_bamfile := "sample.bam"; cli_bamfiles := [];
     cli_options := options |}.

(** What [parse_args] makes of [toy_cli options] on [toy_env]. *)
Definition toy_args (options : list optarg) : Namespace :=
  match parse_args 4 (toy_cli options) with
  | inr args => args
  | inl _ => default_namespace 4 "out" "contigs.fna" "sample.bam" []
  end.

(** [main] as the script calls it for [toy_cli []]. *)
Definition toy_main (V : Vamb) : M unit :=
  main "out" "contigs.fna" ["sample.bam"] 100 50 4 [325; 325; 325] 40 400 128 false
       1000%float 0x1.999999999999ap-3%float 1 (-1).

Definition bam_error : exn := OtherError "OSError" (text "truncated file").

(** The working directory of [toy_disk] with the output directory in it, for
    runs of [main] alone. *)
Definition toy_outdisk : fs := <["out" := Dir]> toy_disk.

(** What a run does after the first operation that raised. *)
Fixpoint after_failure (evs : list event) : list event :=
  match evs with
  | [] => []
  | Call _ (Some _) :: rest => rest
  | _ :: rest => after_failure rest
  end.

(** ** The command line as the shell hands it over

    [parse_args] reads [sys.argv[1:]] in two steps: every string is classed as
    an option string or as an argument, then the positional arguments and the
    options take their values from left to right.  A run of arguments fills
    as many of the positional arguments still open as it can, [bamfiles]
    (with [nargs='+']) taking all that is left of the run; an option that
    takes values takes them from the arguments right after it, [-n] as many
    as there are; arguments nobody takes are an error, as is a missing value
    or positional argument (exit status 2).

    The model covers the command lines made of the option strings of the
    parser, spelt in full, and of arguments that do not start with [-]; for
    any other it gives [None].  The same holds for values: a run of at most
    18 decimal digits is an [int], a string with a letter in it is not, and
    whatever else [int()] might accept is not modelled; for [float()] only
    runs of at most 15 digits are. *)

Module Argv.

Inductive optkind : Type :=
| Help                                  (* action='help' *)
| Flag (o : optarg)                     (* action='store_true' *)
| IntValue (store : Z -> optarg)        (* type=int *)
| IntValues                             (* -n: type=int, nargs='+' *)
| FloatValue (store : float -> optarg). (* type=float *)

Definition option_strings : list (string * optkind) :=
  [ ("-h", Help); ("--help", Help);
    ("-m", IntValue opt_m); ("-a", IntValue opt_a); ("-p", IntValue opt_p);
    ("-n", IntValues); ("-l", IntValue opt_l); ("-e", IntValue opt_e);
    ("-b", IntValue opt_b); ("-s", FloatValue opt_s); ("-r", FloatValue opt_r);
    ("--cuda", Flag opt_cuda); ("--tandem", Flag opt_tandem);
    ("-i", IntValue opt_i); ("-c", IntValue opt_c) ].

Fixpoint option_kind (s : string) (table : list (string * optkind)) : option optkind :=
  match table with
  | [] => None
  | (name, k) :: rest => if String.eqb name s then Some k else option_kind s rest
  end.

Inductive token : Type :=
| Argument (s : string)
| OptionString (k : optkind).

(** The class of one string of the command line, [None] outside the model. *)
Definition classify (s : string) : option token :=
  match option_kind s option_strings with
  | Some k => Some (OptionString k)
  | None => if Posixpath.startswith "-"%char s then None else Some (Argument s)
  end.

Fixpoint classify_all (argv : list string) : option (list token) :=
  match argv with
  | [] => Some []
  | s :: rest =>
      match classify s, classify_all rest with
      | Some t, Some ts => Some (t :: ts)
      | _, _ => None
      end
  end.

Inductive conversion (A : Type) : Type :=
| Converted (a : A)
| Invalid
| NotModelled.
Arguments Converted {A} a.
Arguments Invalid {A}.
Arguments NotModelled {A}.

Definition is_digit (c : ascii) : bool :=
  (48 <=? nat_of_ascii c)%nat && (nat_of_ascii c <=? 57)%nat.

Definition is_letter (c : ascii) : bool :=
  ((65 <=? nat_of_ascii c)%nat && (nat_of_ascii c <=? 90)%nat)
  || ((97 <=? nat_of_ascii c)%nat && (nat_of_ascii c <=? 122)%nat).

Fixpoint all_chars (f : ascii -> bool) (s : string) : bool :=
  match s with
  | EmptyString => true
  | String c r => f c && all_chars f r
  end.

Fixpoint some_char (f : ascii -> bool) (s : string) : bool :=
  match s with
  | EmptyString => false
  | String c r => f c || some_char f r
  end.

Fixpoint digits_value (s : string) (acc : Z) : Z :=
  match s with
  | EmptyString => acc
  | String c r => digits_value r (10 * acc + (Z.of_nat (nat_of_ascii c) - 48))
  end.

(** [int(s)] *)
Definition int_of_string (s : string) : conversion Z :=
  if String.eqb s "" then Invalid
  else if all_chars is_digit s then
    if (String.length s <=? 18)%nat then Converted (digits_value s 0) else NotModelled
  else if some_char is_letter s then Invalid
  else NotModelled.

(** [float(s)] *)
Definition float_of_string (s : string) : conversion float :=
  if negb (String.eqb s "") && all_chars is_digit s && (String.length s <=? 15)%nat
  then Converted (PrimFloat.of_uint63 (Uint63.of_Z (digits_value s 0)))
  else NotModelled.

(** How far the positional arguments have been filled. *)
Inductive stage : Type :=
| NeedOutdir
| NeedFasta (outdir : string)
| NeedBamfiles (outdir fasta : string)
| FillingBamfiles (outdir fasta bamfile : string) (more : list string)
| Filled (outdir fasta bamfile : string) (more : list string).

(** What the option read last still waits for. *)
Inductive waiting : Type :=
| Nothing
| OneInt (store : Z -> optarg)
| OneFloat (store : float -> optarg)
| Widths (got : list Z).

Record progress : Type := {
  positionals : stage;
  pending : waiting;
  options : list optarg;      (* in the order given *)
  unrecognized : bool         (* an argument nobody took *)
}.

Definition usage_error {A} : option (exn + A) := Some (inl (SystemExit 2)).

(** The option read last gets no further value: its values are complete, or
    it is an error. *)
Definition close_option (st : progress) : option (exn + progress) :=
  match pending st with
  | Nothing => Some (inr st)
  | OneInt _ | OneFloat _ => usage_error          (* expected one argument *)
  | Widths [] => usage_error                      (* expected at least one argument *)
  | Widths (v :: vs) =>
      Some (inr {| positionals := positionals st; pending := Nothing;
                   options := (options st ++ [opt_n v vs])%list;
                   unrecognized := unrecognized st |})
  end.

(** The run of arguments that fills [bamfiles] ends where an option starts. *)
Definition close_run (s : stage) : stage :=
  match s with
  | FillingBamfiles o f b more => Filled o f b more
  | _ => s
  end.

Definition take_argument (s : string) (st : progress) : option (exn + progress) :=
  let stored (o : optarg) :=
    {| positionals := positionals st; pending := Nothing;
       options := (options st ++ [o])%list; unrecognized := unrecognized st |} in
  let placed (p : stage) (extra : bool) :=
    {| positionals := p; pending := Nothing;
       options := options st; unrecognized := extra |} in
  match pending st with
  | OneInt store =>
      match int_of_string s with
      | Converted v => Some (inr (stored (store v)))
      | Invalid => usage_error                    (* invalid int value *)
      | NotModelled => None
      end
  | OneFloat store =>
      match float_of_string s with
      | Converted v => Some (inr (stored (store v)))
      | Invalid => usage_error
      | NotModelled => None
      end
  | Widths got =>
      match int_of_string s with
      | Converted v =>
          Some (inr {| positionals := positionals st; pending := Widths (got ++ [v])%list;
                       options := options st; unrecognized := unrecognized st |})
      | Invalid => usage_error
      | NotModelled => None
      end
  | Nothing =>
      match positionals st with
      | NeedOutdir => Some (inr (placed (NeedFasta s) (unrecognized st)))
      | NeedFasta o => Some (inr (placed (NeedBamfiles o s) (unrecognized st)))
      | NeedBamfiles o f => Some (inr (placed (FillingBamfiles o f s []) (unrecognized st)))
      | FillingBamfiles o f b more =>
          Some (inr (placed (FillingBamfiles o f b (more ++ [s])%list) (unrecognized st)))
      | Filled o f b more => Some (inr (placed (Filled o f b more) true))
      end
  end.

Definition take_option (k : optkind) (st : progress) : option (exn + progress) :=
  match close_option st with
  | Some (inr st) =>
      let next (w : waiting) (os : list optarg) :=
        {| positionals := close_run (positionals st); pending := w;
           options := os; unrecognized := unrecognized st |} in
      match k with
      | Help => Some (inl (SystemExit 0))
      | Flag o => Some (inr (next Nothing (options st ++ [o])%list))
      | IntValue store => Some (inr (next (OneInt store) (options st)))
      | IntValues => Some (inr (next (Widths []) (options st)))
      | FloatValue store => Some (inr (next (OneFloat store) (options st)))
      end
  | other => other
  end.

Fixpoint read (ts : list token) (st : progress) : option (exn + progress) :=
  match ts with
  | [] => close_option st
  | t :: rest =>
      match (match t with
             | Argument s => take_argument s st
             | OptionString k => take_option k st
             end) with
      | Some (inr st') => read rest st'
      | stopped => stopped
      end
  end.

(** The command line read in full: every positional argument must have been
    given and no argument may be left over. *)
Definition finish (st : progress) : exn + cli :=
  match positionals st with
  | FillingBamfiles o f b more | Filled o f b more =>
      if unrecognized st then inl (SystemExit 2)
      else inr {| cli_outdir := o; cli_fasta := f; cli_bamfile := b;
                  cli_bamfiles := more; cli_options := options st |}
  | _ => inl (SystemExit 2)
  end.

Definition parse (argv : list string) : option (exn + cli) :=
  match classify_all argv with
  | None => None
  | Some ts =>
      match read ts {| positionals := NeedOutdir; pending := Nothing;
                       options := []; unrecognized := false |} with
      | None => None
      | Some (inl e) => Some (inl e)
      | Some (inr st) => Some (finish st)
      end
  end.

(** The command line with every [--tandem] taken out. *)
Definition without_tandem (argv : list string) : list string :=
  List.filter (fun s => negb (String.eqb s "--tandem")) argv.

End Argv.

(** The module started with [sys.argv[1:] = argv], where the model reads the
    command line. *)
Definition script_argv `{V : Vamb} (env : Env) (argv : list string) : option (M unit) :=
  match argv with
  | [] => Some (script env NoArguments)
  | _ :: _ =>
      match Argv.parse argv with
      | None => None
      | Some (inl e) => Some (_ <- lift (DEFAULT_PROCESSES env) ;; raise e)
      | Some (inr c) => Some (script env (CommandLine c))
      end
  end.

(** ** More ways of reading a trace *)

(** The lines of the log, in the order they were printed. *)
Definition log_lines (evs : list event) : list message :=
  omap (fun e => match e with Print m => Some m | Call _ _ => None end) evs.

(** The templates of the lines of a complete log. *)
Definition log_templates : list string :=
  [ "Starting Vamb version  {}";
    tab ++ "Date and time is {}";
    nl ++ "Calculating TNF";
    tab ++ "Processed {} bases in {} contigs";
    tab ++ "Calculated TNF in {} seconds.";
    nl ++ "Calculating RPKM";
    tab ++ "Parsing {} BAM files with {} subprocesses.";
    tab ++ "Calculated RPKM in {} seconds.";
    nl ++ "Training VAE";
    nl ++ tab ++ "Trained VAE and encoded in {} seconds.";
    nl ++ "Clustering";
    tab ++ "Clustered {} contigs in {} bins.";
    tab ++ "Clustered contigs in {} seconds.";
    nl ++ "Completed Vamb in {} seconds." ].



(** No call of the run raised. *)
Definition no_call_raised (evs : list event) : bool :=
  forallb (fun e => match e with Call _ (Some _) => false | _ => true end) evs.

(** A machine on which the number of processors cannot be determined. *)
Definition blind_env : Env := {| cpu_count := None; cuda_is_available := false |}.

(** * Properties *)

(** ** Running the monad *)

Lemma bind_assoc {A B C} (m : M A) (f : A -> M B) (g : B -> M C) (d : fs) :
  bind (bind m f) g d = bind m (fun a => bind (f a) g) d.
Proof.
  unfold bind. destruct (m d) as [[e|a] d1 ev1]; cbn; [reflexivity|].
  destruct (f a d1) as [[e|b] d2 ev2]; cbn; [reflexivity|].
  rewrite app_assoc. reflexivity.
Qed.

Lemma bind_ask {A B} (f : fs -> A) (k : A -> M B) (d : fs) :
  bind (ask f) k d = k (f d) d.
Proof. unfold bind, ask; cbn. destruct (k (f d) d); reflexivity. Qed.

Lemma bind_lift {A B} (r : exn + A) (k : A -> M B) (d : fs) :
  bind (lift r) k d = match r with inl e => Run (inl e) d [] | inr a => k a d end.
Proof. unfold bind, lift; cbn. destruct r as [e|a]; [reflexivity|]. destruct (k a d); reflexivity. Qed.

Lemma bind_raise_if {B} (b : bool) (e : exn) (k : unit -> M B) (d : fs) :
  bind (raise_if b e) k d = if b then Run (inl e) d [] else k tt d.
Proof. unfold bind, raise_if. destruct b; cbn; [reflexivity|]. destruct (k tt d); reflexivity. Qed.

Lemma bind_raise {A B} (e : exn) (k : A -> M B) (d : fs) :
  bind (raise e) k d = Run (inl e) d [].
Proof. reflexivity. Qed.

Lemma bind_ret {A B} (a : A) (k : A -> M B) (d : fs) :
  bind (ret a) k d = k a d.
Proof. unfold bind, ret; cbn. destruct (k a d); reflexivity. Qed.

Lemma bind_print {B} (line : message) (k : unit -> M B) (d : fs) :
  bind (print line) k d = after [Print line] (k tt d).
Proof. reflexivity. Qed.

Lemma bind_extern {A B} (c : call) (r : exn + A) (k : A -> M B) (d : fs) :
  bind (extern c r) k d
  = match r with
    | inl e => Run (inl e) d [Call c (Some e)]
    | inr a => after [Call c None] (k a d)
    end.
Proof. unfold bind, extern; cbn. destruct r; reflexivity. Qed.

Lemma bind_os_op {B} (c : call) (f : fs -> exn + fs) (k : unit -> M B) (d : fs) :
  bind (os_op c f) k d
  = match f d with
    | inl e => Run (inl e) d [Call c (Some e)]
    | inr d' => after [Call c None] (k tt d')
    end.
Proof. unfold bind, os_op. destruct (f d); reflexivity. Qed.

(** ** The checks *)

Lemma for_each_bamfiles (paths : list string) (d : fs) :
  for_each paths (fun bampath =>
    b <- ask (OS.path_isfile bampath) ;;
    raise_if (negb b) (FileNotFoundError bampath)) d
  = Run (match List.find (fun p => negb (OS.path_isfile p d)) paths with
         | Some p => inl (FileNotFoundError p)
         | None => inr tt
         end) d [].
Proof.
  induction paths as [|p rest IH]; cbn [for_each List.find].
  - reflexivity.
  - rewrite bind_assoc, bind_ask, bind_raise_if.
    destruct (OS.path_isfile p d); cbn [negb]; [exact IH | reflexivity].
Qed.

Lemma bind_for_each_bamfiles {B} (paths : list string) (k : unit -> M B) (d : fs) :
  bind (for_each paths (fun bampath =>
          b <- ask (OS.path_isfile bampath) ;;
          raise_if (negb b) (FileNotFoundError bampath))) k d
  = match List.find (fun p => negb (OS.path_isfile p d)) paths with
    | Some p => Run (inl (FileNotFoundError p)) d []
    | None => k tt d
    end.
Proof.
  unfold bind at 1. rewrite for_each_bamfiles. cbn.
  destruct (List.find _ paths); [reflexivity|]. destruct (k tt d); reflexivity.
Qed.

Lemma getattr_hidden (args : Namespace) : getattr args "hidden" = inl (no_attribute "hidden").
Proof. reflexivity. Qed.

Lemma getattr_latent (args : Namespace) : getattr args "latent" = inl (no_attribute "latent").
Proof. reflexivity. Qed.

Ltac next_check :=
  rewrite ?bind_ask, ?bind_raise_if;
  match goal with
  | |- (if ?b then _ else _) = _ => destruct b; [reflexivity|]
  end.

(** [validate] raises what the first failing check raises, changes nothing on
    the file system and performs no operation. *)
Lemma validate_checks (env : Env) (args : Namespace) (d : fs) :
  validate env args d = Run (checks env args d) d [].
Proof.
  unfold validate, checks.
  do 3 next_check.
  rewrite bind_for_each_bamfiles.
  destruct (List.find _ (bamfiles args)); [reflexivity|].
  do 3 next_check.
  destruct (existsb _ (nhiddens args)).
  { rewrite !bind_assoc, getattr_hidden, bind_lift. reflexivity. }
  rewrite bind_ret.
  destruct (nlatent args <? 1).
  { rewrite !bind_assoc, getattr_latent, bind_lift. reflexivity. }
  rewrite bind_ret.
  do 5 next_check.
  unfold raise_if. destruct (minsize args <? 1); reflexivity.
Qed.

(** ** The stages of [main] *)

Ltac unfold_stages :=
  unfold run_program, main, calc_tnf, calc_rpkm, trainvae, cluster.

(** Follows every way the run can go: each outside operation either raises
    or returns, and the run goes on from there. *)
Ltac follow_run :=
  repeat first
    [ rewrite bind_assoc
    | rewrite bind_print
    | rewrite bind_extern
    | rewrite bind_os_op
    | rewrite bind_raise_if
    | rewrite bind_ret
    | match goal with
      | |- context [match ?x with inl _ => _ | inr _ => _ end] =>
          destruct x as [?|?] eqn:?
      | |- context [let '(_, _) := ?x in _] => destruct x
      | |- context [if negb ?b then _ else _] => destruct b eqn:?; cbn [negb]
      end ];
  cbn [after result disk events app print ret raise].

Ltac settle_membership H :=
  cbn in H;
  repeat match type of H with
         | _ \/ _ => destruct H as [H|H]
         | False => contradiction
         | Print _ = Call _ _ => discriminate H
         | Call _ None = Call _ (Some _) => discriminate H
         | Call _ (Some _) = Call _ (Some _) => injection H as <- <-
         end.

Section MainProperties.

Context {V : Vamb}.
Variables (outdir fastapath : string) (bampaths : list string).
Variables (mincontiglength minalignscore subprocesses : Z).
Variables (nhiddens : list Z) (nlatent nepochs batchsize : Z) (cuda : bool).
Variables (capacity mseratio : float) (minclustersize maxclusters : Z).

Local Abbreviation run_main :=
  (main outdir fastapath bampaths mincontiglength minalignscore subprocesses
        nhiddens nlatent nepochs batchsize cuda capacity mseratio
        minclustersize maxclusters).


(** C7, as the script has it.  An exception raised by an operation of a stage
    leaves [main] as it is: the failing call is the last thing the run does
    (nothing is caught, translated or tried again) and [main] raises that
    very exception.  Nothing is written to the log at the failure; the stage
    is named in the log only by the line its wrapper printed on entry. *)
Theorem stage_error_escapes_main (d : fs) (c : call) (e : exn) :
  In (Call c (Some e)) (events (run_main d)) ->
  result (run_main d) = inl e
  /\ last (events (run_main d)) = Some (Call c (Some e))
  /\ after_failure (events (run_main d)) = []
  /\ exists s, stage_of_call c = Some s /\ In (Print (header s)) (events (run_main d)).
Proof.
  unfold_stages. follow_run.
  all: intros H; settle_membership H.
  all: split; [reflexivity|]; split; [reflexivity|]; split; [reflexivity|].
  all: eexists; split; [reflexivity|]; cbn; tauto.
Qed.

(** C1, as the script has it.  When the coverage stage returns a matrix whose
    number of rows differs from the number of contig names of the feature
    stage, [main] raises [ValueError] with one fixed message, which carries no
    formatted argument; the training is not called and the coverage matrix is
    not handed to [write_npz]. *)
Theorem row_mismatch_raises_ValueError (d : fs)
    (tnfs : Tnfs) (contignames : list string) (contiglengths : list Z) (rpkms : Rpkms) :
  read_contigs fastapath mincontiglength = inr (tnfs, contignames, contiglengths) ->
  read_bamfiles bampaths minalignscore mincontiglength subprocesses = inr rpkms ->
  len_rpkms rpkms <> length contignames ->
  In (Call (CallReadBamfiles bampaths minalignscore mincontiglength subprocesses) None)
     (events (run_main d)) ->
  result (run_main d) = inl (ValueError mismatch_message)
  /\ existsb is_trainvae_call (events (run_main d)) = false
  /\ existsb (is_write_npz RpkmsArray) (events (run_main d)) = false.
Proof.
  intros Hcontigs Hbam Hrows.
  unfold_stages. follow_run.
  all: try congruence.
  all: try (exfalso; apply Hrows; apply Nat.eqb_eq; congruence).
  all: intros H; cbn in H.
  all: repeat match type of H with
              | _ \/ _ => destruct H as [H|H]
              | False => contradiction
              | _ = _ => discriminate H
              end.
  all: repeat split.
Qed.

End MainProperties.

(** ** The whole program *)


(** C6.  On a machine with [n] processors, a command line without options is
    parsed into the defaults: minimum contig length 100, minimum alignment
    score 50, min(8, n) subprocesses, hidden layers [325; 325; 325], 40 latent
    neurons, 400 epochs, batch size 128, capacity 1000.0, ratio 0.2, no
    accelerator, minimum cluster size 1 and maximum cluster count -1; and
    these are the values the checks and [main] are run with. *)
Theorem defaults_without_options `{V : Vamb} (n : Z) (gpu : bool)
    (o f b : string) (bs : list string) (d : fs) :
  let env := {| cpu_count := Some n; cuda_is_available := gpu |} in
  let c := {| cli_outdir := o; cli_fasta := f; cli_bamfile := b; cli_bamfiles := bs;
              cli_options := [] |} in
  let args := default_namespace (Z.min 8 n) o f b bs in
  DEFAULT_PROCESSES env = inr (Z.min 8 n)
  /\ parse_args (Z.min 8 n) c = inr args
  /\ script env (CommandLine c) d = (validate env args ;; run_program args) d.
Proof.
  intros env c args.
  assert (Hp : DEFAULT_PROCESSES env = inr (Z.min 8 n)).
  { unfold DEFAULT_PROCESSES; cbn. f_equal.
    destruct (Z.ltb_spec 8 n); lia. }
  split; [exact Hp|]. split; [reflexivity|].
  unfold script. rewrite Hp, bind_lift, bind_lift. reflexivity.
Qed.

(** ** Paths without a directory part *)

Lemma rfind_bare_name (p : string) :
  bare_name p = true -> Posixpath.rfind Posixpath.sep p = -1.
Proof.
  induction p as [|a r IH]; cbn [bare_name Posixpath.rfind]; [reflexivity|].
  intros H. apply andb_prop in H as [Ha Hr].
  rewrite (IH Hr). cbn. apply negb_true_iff in Ha. rewrite Ha. reflexivity.
Qed.

Lemma dirname_bare_name (p : string) :
  bare_name p = true -> Posixpath.dirname p = "".
Proof.
  intros H. unfold Posixpath.dirname. rewrite (rfind_bare_name p H). cbn.
  destruct p; reflexivity.
Qed.

(** C10.  When the output directory is a bare name (no separator in it),
    [os.path.dirname] gives the empty string, so the check of the parent
    directory is skipped: whatever the file system holds, the checks do not
    raise [NotADirectoryError]. *)
Theorem bare_outdir_skips_parent_check (env : Env) (args : Namespace) (d : fs) :
  bare_name (outdir args) = true ->
  Posixpath.dirname (outdir args) = ""
  /\ forall p, result (validate env args d) <> inl (NotADirectoryError p).
Proof.
  intros H. pose proof (dirname_bare_name _ H) as Hdir.
  split; [exact Hdir|]. intros p.
  rewrite validate_checks; cbn [result]. unfold checks, no_attribute. rewrite Hdir. cbn.
  repeat match goal with
         | |- context [if ?b then _ else _] => destruct b; try discriminate
         | |- context [match ?o with Some _ => _ | None => _ end] => destruct o; try discriminate
         end.
Qed.

Lemma checks_reach_training_options (env : Env) (args : Namespace) (d : fs) :
  passes_io_checks args d = true ->
  checks env args d
  = if existsb (fun i => i <? 1) (nhiddens args) then inl (no_attribute "hidden")
    else if nlatent args <? 1 then inl (no_attribute "latent")
    else checks env args d.
Proof.
  intros Hio. unfold passes_io_checks in Hio.
  apply andb_prop in Hio as [Hio Hscore].
  apply andb_prop in Hio as [Hio Hsub].
  apply andb_prop in Hio as [Hio Hlen].
  apply andb_prop in Hio as [Hio Hbams].
  apply andb_prop in Hio as [Hio Hfasta].
  apply andb_prop in Hio as [Hout Hparent].
  apply negb_true_iff in Hout.
  assert (Hfind : List.find (fun p => negb (OS.path_isfile p d)) (bamfiles args) = None).
  { destruct (List.find _ (bamfiles args)) as [p|] eqn:Hf; [|reflexivity].
    apply find_some in Hf as [Hin Hp].
    rewrite forallb_forall in Hbams. rewrite (Hbams p Hin) in Hp. discriminate. }
  apply Z.leb_le in Hscore, Hsub, Hlen.
  unfold checks.
  rewrite Hout, <- negb_orb, Hparent, Hfasta, Hfind. cbn [negb].
  replace (minlength args <? 100) with false by (symmetry; apply Z.ltb_ge; lia).
  replace (subprocesses args <? 1) with false by (symmetry; apply Z.ltb_ge; lia).
  replace (minascore args <? 0) with false by (symmetry; apply Z.ltb_ge; lia).
  destruct (existsb _ (nhiddens args)); [reflexivity|].
  destruct (nlatent args <? 1); reflexivity.
Qed.

(** C8.  When the checks on paths and on the input options pass and a hidden
    layer has a width below 1, the check raises [AttributeError] for the
    attribute [hidden], which the parser never sets, and not the
    [ArgumentTypeError] it is building; likewise, with all widths at least 1
    and fewer than 1 latent neurons, [AttributeError] for [latent]. *)
Theorem bad_width_raises_AttributeError (env : Env) (args : Namespace) (d : fs) :
  passes_io_checks args d = true ->
  ((exists i, In i (nhiddens args) /\ i < 1) ->
   result (validate env args d) = inl (no_attribute "hidden"))
  /\ (Forall (fun i => 1 <= i) (nhiddens args) -> nlatent args < 1 ->
      result (validate env args d) = inl (no_attribute "latent")).
Proof.
  intros Hio. split.
  - intros [i [Hin Hi]]. rewrite validate_checks; cbn [result].
    rewrite (checks_reach_training_options env args d Hio).
    replace (existsb (fun i => i <? 1) (nhiddens args)) with true; [reflexivity|].
    symmetry. apply existsb_exists. exists i. split; [exact Hin|]. apply Z.ltb_lt. exact Hi.
  - intros Hall Hlat. rewrite validate_checks; cbn [result].
    rewrite (checks_reach_training_options env args d Hio).
    replace (existsb (fun i => i <? 1) (nhiddens args)) with false.
    + replace (nlatent args <? 1) with true by (symmetry; apply Z.ltb_lt; exact Hlat).
      reflexivity.
    + symmetry. apply not_true_is_false. intros Hex.
      apply existsb_exists in Hex as [i [Hin Hi]].
      apply Z.ltb_lt in Hi.
      rewrite List.Forall_forall in Hall. specialize (Hall i Hin). cbv beta in Hall. lia.
Qed.

(** ** What the checks accept *)

Lemma find_none_iff {A} (f : A -> bool) (l : list A) :
  List.find f l = None <-> forall x, In x l -> f x = false.
Proof.
  split; [apply find_none|].
  intros H. destruct (List.find f l) as [x|] eqn:Hf; [|reflexivity].
  apply find_some in Hf as [Hin Hx]. rewrite (H x Hin) in Hx. discriminate.
Qed.

Lemma existsb_false_iff {A} (f : A -> bool) (l : list A) :
  existsb f l = false <-> forall x, In x l -> f x = false.
Proof.
  split.
  - intros H x Hin. destruct (f x) eqn:Hx; [|reflexivity].
    rewrite <- H. symmetry. apply existsb_exists. exists x. auto.
  - intros H. apply not_true_is_false. intros Hex.
    apply existsb_exists in Hex as [x [Hin Hx]]. rewrite (H x Hin) in Hx. discriminate.
Qed.

(** X13.  The checks let a run through exactly when the output directory is new
    and its parent (if it names one) is a directory, the input files are
    there, and every option is within its bounds. *)
Theorem validate_accepts_iff (env : Env) (args : Namespace) (d : fs) :
  result (validate env args d) = inr tt <-> acceptable env args d.
Proof.
  rewrite validate_checks; cbn [result]. unfold checks, acceptable.
  destruct (OS.path_exists (outdir args) d);
    [split; [discriminate | intros [? _]; discriminate]|].
  rewrite <- negb_orb.
  destruct (String.eqb_spec (Posixpath.dirname (outdir args)) "") as [Hd|Hd];
    destruct (OS.path_isdir (Posixpath.dirname (outdir args)) d); cbn [orb negb].
  4: { split; [discriminate|]. intros (_ & [?|?] & _); [contradiction | discriminate]. }
  all: (destruct (OS.path_isfile (fasta args) d); cbn [negb];
        [| split; [discriminate|]; intros (_ & _ & ? & _); discriminate]).
  all: (destruct (List.find _ (bamfiles args)) as [p|] eqn:Hfind;
        [ split; [discriminate|]; intros (_ & _ & _ & Hb & _);
          apply find_some in Hfind as [Hin Hp]; rewrite (Hb p Hin) in Hp; discriminate |]).
  all: rewrite find_none_iff in Hfind.
  all: (destruct (Z.ltb_spec (minlength args) 100);
        [split; [discriminate|]; intros (_ & _ & _ & _ & ? & _); lia|]).
  all: (destruct (Z.ltb_spec (subprocesses args) 1);
        [split; [discriminate|]; intros (_ & _ & _ & _ & _ & ? & _); lia|]).
  all: (destruct (Z.ltb_spec (minascore args) 0);
        [split; [discriminate|]; intros (_ & _ & _ & _ & _ & _ & ? & _); lia|]).
  all: (destruct (existsb (fun i => i <? 1) (nhiddens args)) eqn:Hhid;
        [ split; [discriminate|]; intros (_ & _ & _ & _ & _ & _ & _ & Hh & _);
          apply existsb_exists in Hhid as [i [Hin Hi]]; apply Z.ltb_lt in Hi;
          specialize (Hh i Hin); lia |]).
  all: rewrite existsb_false_iff in Hhid.
  all: (destruct (Z.ltb_spec (nlatent args) 1);
        [split; [discriminate|]; intros (_ & _ & _ & _ & _ & _ & _ & _ & ? & _); lia|]).
  all: (destruct (Z.ltb_spec (nepochs args) 1);
        [split; [discriminate|]; intros (_ & _ & _ & _ & _ & _ & _ & _ & _ & ? & _); lia|]).
  all: (destruct (Z.ltb_spec (batchsize args) 1);
        [split; [discriminate|];
         intros (_ & _ & _ & _ & _ & _ & _ & _ & _ & _ & ? & _); lia|]).
  all: (destruct (PrimFloat.ltb (capacity args) 0);
        [split; [discriminate|];
         intros (_ & _ & _ & _ & _ & _ & _ & _ & _ & _ & _ & ? & _); discriminate|]).
  all: (destruct (PrimFloat.leb (mseratio args) 0); cbn [orb];
        [split; [discriminate|];
         intros (_ & _ & _ & _ & _ & _ & _ & _ & _ & _ & _ & _ & ? & _); discriminate|]).
  all: (destruct (PrimFloat.leb 1 (mseratio args));
        [split; [discriminate|];
         intros (_ & _ & _ & _ & _ & _ & _ & _ & _ & _ & _ & _ & _ & ? & _); discriminate|]).
  all: (destruct (cuda args); destruct (cuda_is_available env); cbn [andb negb]).
  all: try (split; [discriminate|];
            intros (_ & _ & _ & _ & _ & _ & _ & _ & _ & _ & _ & _ & _ & _ & Hc & _);
            specialize (Hc eq_refl); discriminate).
  all: (destruct (Z.ltb_spec (minsize args) 1);
        [split; [discriminate|];
         intros (_ & _ & _ & _ & _ & _ & _ & _ & _ & _ & _ & _ & _ & _ & _ & ?); lia|]).
  all: split; [intros _ | reflexivity].
  all: repeat split; auto; try lia.
  all: try (intros p Hin; specialize (Hfind p Hin); apply negb_false_iff in Hfind; exact Hfind).
  all: try (intros i Hin; specialize (Hhid i Hin); apply Z.ltb_ge in Hhid; exact Hhid).
  all: try discriminate.
Qed.

(** ** A failing check leaves nothing behind *)

(** C2, as the script has it.  When a check fails, the script raises what the
    check raised before [os.mkdir] is reached: no operation has been
    performed, nothing has been written, and the file system is as it was.
    The output directory therefore does not exist afterwards, unless it was
    there before the run, which is the case [FileExistsError] reports. *)
Theorem failed_validation_leaves_nothing `{V : Vamb}
    (env : Env) (c : cli) (d : fs) (processes : Z) (args : Namespace) (e : exn) :
  DEFAULT_PROCESSES env = inr processes ->
  parse_args processes c = inr args ->
  result (validate env args d) = inl e ->
  result (script env (CommandLine c) d) = inl e
  /\ disk (script env (CommandLine c) d) = d
  /\ events (script env (CommandLine c) d) = []
  /\ (e <> FileExistsError (outdir args) ->
      OS.path_exists (outdir args) (disk (script env (CommandLine c) d)) = false).
Proof.
  intros Hdp Hparse Hval.
  assert (Hrun : script env (CommandLine c) d = Run (inl e) d []).
  { unfold script. rewrite Hdp, bind_lift, Hparse, bind_lift.
    unfold bind. rewrite validate_checks in Hval |- *. cbn [result] in Hval |- *.
    rewrite Hval. reflexivity. }
  rewrite Hrun; cbn [result disk events].
  repeat split. intros Hne.
  rewrite validate_checks in Hval; cbn [result] in Hval. unfold checks in Hval.
  destruct (OS.path_exists (outdir args) d); [|reflexivity].
  exfalso. apply Hne. congruence.
Qed.

(** ** [--tandem] *)

Lemma stored_without_tandem {A} (sel : optarg -> option A) (default : A) (os : list optarg) :
  sel opt_tandem = None ->
  stored sel default (List.filter (fun o => negb (is_tandem o)) os) = stored sel default os.
Proof.
  intros Hsel. unfold stored. revert default.
  induction os as [|o rest IH]; intros default; [reflexivity|].
  destruct o; cbn [List.filter is_tandem negb fold_left]; try apply IH.
  rewrite Hsel. apply IH.
Qed.

Lemma stored_tandem_filtered (b : bool) (os : list optarg) :
  stored (fun o => match o with opt_tandem => Some true | _ => None end) b
         (List.filter (fun o => negb (is_tandem o)) os) = b.
Proof.
  unfold stored. induction os as [|o rest IH]; [reflexivity|].
  destruct o; cbn [List.filter is_tandem negb fold_left]; exact IH.
Qed.

Lemma help_without_tandem (os : list optarg) :
  existsb is_help (List.filter (fun o => negb (is_tandem o)) os) = existsb is_help os.
Proof.
  induction os as [|o rest IH]; [reflexivity|].
  destruct o; cbn [List.filter is_tandem negb existsb is_help orb]; try exact IH.
  reflexivity.
Qed.

Lemma parse_args_without_tandem (processes : Z) (c : cli) :
  parse_args processes (without_tandem c)
  = match parse_args processes c with
    | inl e => inl e
    | inr args => inr (with_tandem false args)
    end.
Proof.
  unfold parse_args, without_tandem.
  cbn [cli_options cli_outdir cli_fasta cli_bamfile cli_bamfiles].
  rewrite help_without_tandem. destruct (existsb is_help (cli_options c)); [reflexivity|].
  unfold with_tandem.
  cbn [outdir fasta bamfiles minlength minascore subprocesses nhiddens nlatent nepochs
       batchsize capacity mseratio cuda tandem minsize maxclusters].
  rewrite stored_tandem_filtered.
  rewrite !stored_without_tandem by reflexivity.
  reflexivity.
Qed.

Lemma validate_with_tandem (env : Env) (b : bool) (args : Namespace) :
  validate env (with_tandem b args) = validate env args.
Proof. reflexivity. Qed.

Lemma run_program_with_tandem `{V : Vamb} (b : bool) (args : Namespace) :
  run_program (with_tandem b args) = run_program args.
Proof. reflexivity. Qed.

Lemma script_without_tandem `{V : Vamb} (env : Env) (c : cli) (d : fs) :
  script env (CommandLine (without_tandem c)) d = script env (CommandLine c) d.
Proof.
  unfold script. destruct (DEFAULT_PROCESSES env) as [e|processes];
    rewrite !bind_lift; [reflexivity|].
  rewrite parse_args_without_tandem.
  destruct (parse_args processes c) as [e|args]; [reflexivity|].
  rewrite validate_with_tandem, run_program_with_tandem. reflexivity.
Qed.

(** C9, as the script has it.  Two command lines that are read into the
    same positional arguments and into option lists that differ only in
    [--tandem] run alike: the parsed arguments agree on every attribute but
    [tandem], which neither the checks nor the call of [main] read, so the
    result, the file system and every operation with its arguments are the
    same. *)
Theorem tandem_has_no_effect `{V : Vamb} (env : Env) (c1 c2 : cli) (d : fs) :
  differ_only_in_tandem c1 c2 ->
  script env (CommandLine c1) d = script env (CommandLine c2) d
  /\ forall processes args1 args2,
       parse_args processes c1 = inr args1 ->
       parse_args processes c2 = inr args2 ->
       with_tandem false args1 = with_tandem false args2.
Proof.
  intros Hdiff. unfold differ_only_in_tandem in Hdiff. split.
  - rewrite <- (script_without_tandem env c1), <- (script_without_tandem env c2).
    rewrite Hdiff. reflexivity.
  - intros processes args1 args2 H1 H2.
    pose proof (parse_args_without_tandem processes c1) as P1.
    pose proof (parse_args_without_tandem processes c2) as P2.
    rewrite H1 in P1. rewrite H2 in P2. rewrite Hdiff in P1. congruence.
Qed.

(** ** Concrete runs *)


Lemma stage_error_escapes_main_witness :
  result (toy_main (toy_vamb 10 10 (Some bam_error)) toy_outdisk) = inl bam_error
  /\ last (events (toy_main (toy_vamb 10 10 (Some bam_error)) toy_outdisk))
     = Some (Call (CallReadBamfiles ["sample.bam"] 50 100 4) (Some bam_error))
  /\ after_failure (events (toy_main (toy_vamb 10 10 (Some bam_error)) toy_outdisk)) = []
  /\ exists s, stage_of_call (CallReadBamfiles ["sample.bam"] 50 100 4) = Some s
       /\ In (Print (header s))
             (events (toy_main (toy_vamb 10 10 (Some bam_error)) toy_outdisk)).
Proof.
  apply (stage_error_escapes_main (V:=toy_vamb 10 10 (Some bam_error))
           "out" "contigs.fna" ["sample.bam"] 100 50 4 [325; 325; 325] 40 400 128
           false 1000%float 0x1.999999999999ap-3%float 1 (-1) toy_outdisk).
  vm_compute. repeat (try (left; reflexivity); right).
Defined.

(** C7, as the claim has it, fails: when [read_bamfiles] raises, the run ends
    with that exception and no line is written to the log from the failure
    on, so none that names the stage. *)
Lemma nothing_is_logged_at_a_failure :
  result (toy_main (toy_vamb 10 10 (Some bam_error)) toy_outdisk) = inl bam_error
  /\ ~ (exists line,
          In (Print line)
             (after_failure (events (toy_main (toy_vamb 10 10 (Some bam_error))
                                              toy_outdisk)))).
Proof.
  split; [vm_compute; reflexivity|].
  intros [line H]. vm_compute in H. exact H.
Qed.

Lemma row_mismatch_raises_ValueError_witness :
  result (toy_main (toy_vamb 10 8 None) toy_outdisk) = inl (ValueError mismatch_message)
  /\ existsb is_trainvae_call (events (toy_main (toy_vamb 10 8 None) toy_outdisk)) = false
  /\ existsb (is_write_npz RpkmsArray) (events (toy_main (toy_vamb 10 8 None) toy_outdisk))
     = false.
Proof.
  apply (row_mismatch_raises_ValueError (V:=toy_vamb 10 8 None)
           "out" "contigs.fna" ["sample.bam"] 100 50 4 [325; 325; 325] 40 400 128
           false 1000%float 0x1.999999999999ap-3%float 1 (-1) toy_outdisk
           10%nat (map (fun i => "contig" ++ str_of_Z (Z.of_nat i)) (seq 1 10))
           (repeat 150 10) 8%nat).
  - reflexivity.
  - reflexivity.
  - vm_compute. discriminate.
  - vm_compute. repeat (try (left; reflexivity); right).
Defined.

(** C1, as the claim has it, fails: with 10 contigs and 8 rows the exception
    raised names neither 10 nor 8. *)
Lemma mismatch_error_names_no_count :
  ~ (exists e, result (script (V:=toy_vamb 10 8 None) toy_env (CommandLine (toy_cli []))
                              toy_disk) = inl e
               /\ names_number 10 (message_of e) = true
               /\ names_number 8 (message_of e) = true).
Proof.
  intros [e [Hres [H10 _]]].
  vm_compute in Hres. injection Hres as <-.
  vm_compute in H10. discriminate H10.
Qed.


Lemma failed_validation_leaves_nothing_witness :
  result (script (V:=toy_vamb 10 10 None) toy_env (CommandLine (toy_cli [opt_r 1%float]))
                 toy_disk)
  = inl (ArgumentTypeError (text "MSE ratio must be above 0 and below 1"))
  /\ disk (script (V:=toy_vamb 10 10 None) toy_env (CommandLine (toy_cli [opt_r 1%float]))
                  toy_disk) = toy_disk
  /\ events (script (V:=toy_vamb 10 10 None) toy_env (CommandLine (toy_cli [opt_r 1%float]))
                    toy_disk) = []
  /\ OS.path_exists "out"
       (disk (script (V:=toy_vamb 10 10 None) toy_env
                     (CommandLine (toy_cli [opt_r 1%float])) toy_disk)) = false.
Proof.
  destruct (failed_validation_leaves_nothing (V:=toy_vamb 10 10 None)
              toy_env (toy_cli [opt_r 1%float]) toy_disk 4 (toy_args [opt_r 1%float])
              (ArgumentTypeError (text "MSE ratio must be above 0 and below 1")))
    as (Hres & Hdisk & Hevents & Hout).
  - reflexivity.
  - reflexivity.
  - vm_compute. reflexivity.
  - split; [exact Hres|]. split; [exact Hdisk|]. split; [exact Hevents|].
    apply Hout. discriminate.
Defined.

(** C2, as the claim has it, fails: when the output directory is already
    there, the first check raises and the directory is there afterwards too. *)
Lemma existing_outdir_is_still_there :
  result (validate toy_env (toy_args [])
                   (<["out" := Dir]> toy_disk)) = inl (FileExistsError "out")
  /\ result (script (V:=toy_vamb 10 10 None) toy_env (CommandLine (toy_cli []))
                    (<["out" := Dir]> toy_disk)) = inl (FileExistsError "out")
  /\ OS.path_exists "out"
       (disk (script (V:=toy_vamb 10 10 None) toy_env (CommandLine (toy_cli []))
                     (<["out" := Dir]> toy_disk))) = true.
Proof. vm_compute. repeat split. Qed.

(** C3.  A hidden layer of width 0, or 0 latent neurons, is turned away with
    an [AttributeError] about the attribute the message was to be built
    from, not with the [ArgumentTypeError] that names the option. *)
Theorem nonpositive_width_is_reported_as_missing_attribute :
  result (script (V:=toy_vamb 10 10 None) toy_env (CommandLine (toy_cli [opt_n 0 []]))
                 toy_disk) = inl (no_attribute "hidden")
  /\ result (script (V:=toy_vamb 10 10 None) toy_env (CommandLine (toy_cli [opt_l 0]))
                    toy_disk) = inl (no_attribute "latent").
Proof. vm_compute. split; reflexivity. Qed.

Lemma bad_width_raises_AttributeError_witness :
  result (validate toy_env (toy_args [opt_n 325 [0; 325]]) toy_disk)
  = inl (no_attribute "hidden")
  /\ result (validate toy_env (toy_args [opt_l 0]) toy_disk)
     = inl (no_attribute "latent").
Proof.
  split.
  - apply (proj1 (bad_width_raises_AttributeError
                    toy_env (toy_args [opt_n 325 [0; 325]]) toy_disk eq_refl)).
    exists 0. split; [vm_compute; auto | lia].
  - apply (proj2 (bad_width_raises_AttributeError
                    toy_env (toy_args [opt_l 0]) toy_disk eq_refl)).
    + vm_compute. repeat constructor; discriminate.
    + vm_compute. reflexivity.
Defined.

Lemma tandem_has_no_effect_witness :
  script (V:=toy_vamb 10 10 None) toy_env
         (CommandLine (toy_cli [opt_tandem; opt_l 32])) toy_disk
  = script (V:=toy_vamb 10 10 None) toy_env (CommandLine (toy_cli [opt_l 32])) toy_disk.
Proof.
  apply (proj1 (tandem_has_no_effect (V:=toy_vamb 10 10 None) toy_env
                  (toy_cli [opt_tandem; opt_l 32]) (toy_cli [opt_l 32]) toy_disk eq_refl)).
Defined.

(** C9, as the claim has it, fails on the command line itself: [--tandem]
    also ends the list of values of [-n].  With it, [-n] takes [10] and the
    BAM path is read as such; without it, [-n] takes the BAM path too, which
    is no [int], and the program exits with status 2 before anything runs. *)
Lemma tandem_ends_the_values_of_n :
  Argv.without_tandem ["out"; "contigs.fna"; "-n"; "10"; "--tandem"; "sample.bam"]
  = Argv.without_tandem ["out"; "contigs.fna"; "-n"; "10"; "sample.bam"]
  /\ option_map (fun m => result (m toy_disk))
       (script_argv (V:=toy_vamb 10 10 None) toy_env
          ["out"; "contigs.fna"; "-n"; "10"; "--tandem"; "sample.bam"])
     = Some (inr tt)
  /\ option_map (fun m => m toy_disk)
       (script_argv (V:=toy_vamb 10 10 None) toy_env
          ["out"; "contigs.fna"; "-n"; "10"; "sample.bam"])
     = Some (Run (inl (SystemExit 2)) toy_disk []).
Proof. vm_compute. repeat split. Qed.

Lemma bare_outdir_skips_parent_check_witness :
  Posixpath.dirname "out" = ""
  /\ result (validate toy_env (toy_args []) (∅ : fs))
     <> inl (NotADirectoryError "").
Proof.
  destruct (bare_outdir_skips_parent_check
              toy_env (toy_args []) (∅ : fs) eq_refl) as [Hdir Hnever].
  split; [exact Hdir | apply Hnever].
Defined.

(** The ratio: 0 and 1 are turned away, 0.5 goes through. *)
Example ratio_zero_rejected :
  result (script (V:=toy_vamb 10 10 None) toy_env (CommandLine (toy_cli [opt_r 0%float]))
                 toy_disk)
  = inl (ArgumentTypeError (text "MSE ratio must be above 0 and below 1")).
Proof. vm_compute. reflexivity. Qed.

Example ratio_one_rejected :
  result (script (V:=toy_vamb 10 10 None) toy_env (CommandLine (toy_cli [opt_r 1%float]))
                 toy_disk)
  = inl (ArgumentTypeError (text "MSE ratio must be above 0 and below 1")).
Proof. vm_compute. reflexivity. Qed.

Example ratio_half_accepted :
  result (script (V:=toy_vamb 10 10 None) toy_env (CommandLine (toy_cli [opt_r 0.5%float]))
                 toy_disk) = inr tt.
Proof. vm_compute. reflexivity. Qed.

Example dirname_nested : Posixpath.dirname "runs/out" = "runs".
Proof. reflexivity. Qed.

Example dirname_root : Posixpath.dirname "/out" = "/".
Proof. reflexivity. Qed.

Example dirname_doubled_separator : Posixpath.dirname "a//b" = "a".
Proof. reflexivity. Qed.

Example join_plain : Posixpath.join "out" "tnf.npz" = "out/tnf.npz".
Proof. reflexivity. Qed.

Example join_trailing_separator : Posixpath.join "out/" "tnf.npz" = "out/tnf.npz".
Proof. reflexivity. Qed.

(** * Further properties of the script *)

(** ** What a rejection says *)

(** X1.  The errors of the path checks are truthful: [FileExistsError] is
    raised for the output directory and only when it exists;
    [NotADirectoryError] for its non-empty parent and only when that is not a
    directory; [FileNotFoundError] for the FASTA path or one of the BAM paths
    and only when that path is not a regular file. *)
Theorem path_errors_are_truthful (env : Env) (args : Namespace) (d : fs) :
  (forall p, result (validate env args d) = inl (FileExistsError p) ->
             p = outdir args /\ OS.path_exists p d = true)
  /\ (forall p, result (validate env args d) = inl (NotADirectoryError p) ->
                p = Posixpath.dirname (outdir args) /\ p <> ""
                /\ OS.path_isdir p d = false)
  /\ (forall p, result (validate env args d) = inl (FileNotFoundError p) ->
                (p = fasta args \/ In p (bamfiles args)) /\ OS.path_isfile p d = false).
Proof.
  rewrite validate_checks; cbn [result]. unfold checks, no_attribute.
  destruct (OS.path_exists (outdir args) d) eqn:Hout.
  { split; [|split]; intros p H; try discriminate H. injection H as <-. auto. }
  destruct (String.eqb_spec (Posixpath.dirname (outdir args)) "") as [Hd|Hd];
    destruct (OS.path_isdir (Posixpath.dirname (outdir args)) d) eqn:Hpar; cbn [negb andb].
  4: { split; [|split]; intros p H; try discriminate H. injection H as <-. auto. }
  all: destruct (OS.path_isfile (fasta args) d) eqn:Hfa; cbn [negb].
  all: try (split; [|split]; intros p H; try discriminate H; injection H as <-; auto; fail).
  all: destruct (List.find _ (bamfiles args)) as [q|] eqn:Hfind.
  all: try (apply find_some in Hfind as [Hin Hq]; apply negb_true_iff in Hq;
            split; [|split]; intros p H; try discriminate H; injection H as <-; auto; fail).
  all: repeat match goal with
              | |- context [if ?b then _ else _] => destruct b
              end.
  all: split; [|split]; intros p H; discriminate H.
Qed.

(** X2.  An [ArgumentTypeError] names the bound that was violated, with one
    exception in the wording: the message for a minimum cluster size below 1
    says ['at least 0']. *)
Theorem option_errors_name_the_violated_bound (env : Env) (args : Namespace) (d : fs)
    (m : message) :
  result (validate env args d) = inl (ArgumentTypeError m) ->
  (m = text "Minimum contig length must be at least 100" /\ minlength args < 100)
  \/ (m = text "Zero or negative subprocesses requested." /\ subprocesses args < 1)
  \/ (m = text "Minimum alignment score cannot be negative" /\ minascore args < 0)
  \/ (m = Format "Minimum 1 epoch, not {}" [PyInt (nepochs args)] /\ nepochs args < 1)
  \/ (m = Format "Minimum batchsize of 1, not {}" [PyInt (batchsize args)]
      /\ batchsize args < 1)
  \/ (m = text "Capacity cannot be negative" /\ PrimFloat.ltb (capacity args) 0 = true)
  \/ (m = text "MSE ratio must be above 0 and below 1"
      /\ (PrimFloat.leb (mseratio args) 0 = true \/ PrimFloat.leb 1 (mseratio args) = true))
  \/ (m = text "Minimum cluster size must be at least 0." /\ minsize args < 1).
Proof.
  rewrite validate_checks; cbn [result]. unfold checks, no_attribute.
  destruct (OS.path_exists (outdir args) d); [discriminate|].
  destruct (negb _ && negb _); [discriminate|].
  destruct (negb (OS.path_isfile (fasta args) d)); [discriminate|].
  destruct (List.find _ (bamfiles args)); [discriminate|].
  destruct (Z.ltb_spec (minlength args) 100); [intros [= <-]; tauto|].
  destruct (Z.ltb_spec (subprocesses args) 1); [intros [= <-]; tauto|].
  destruct (Z.ltb_spec (minascore args) 0); [intros [= <-]; tauto|].
  destruct (existsb _ (nhiddens args)); [discriminate|].
  destruct (Z.ltb_spec (nlatent args) 1); [discriminate|].
  destruct (Z.ltb_spec (nepochs args) 1); [intros [= <-]; tauto|].
  destruct (Z.ltb_spec (batchsize args) 1); [intros [= <-]; tauto|].
  destruct (PrimFloat.ltb (capacity args) 0) eqn:Hcap; [intros [= <-]; tauto|].
  destruct (PrimFloat.leb (mseratio args) 0) eqn:Hlow; cbn [orb];
    [intros [= <-]; tauto|].
  destruct (PrimFloat.leb 1 (mseratio args)) eqn:Hhigh; [intros [= <-]; tauto|].
  destruct (cuda args && negb (cuda_is_available env)); [discriminate|].
  destruct (Z.ltb_spec (minsize args) 1); [intros [= <-]; tauto | discriminate].
Qed.

Lemma option_errors_name_the_violated_bound_witness :
  (text "Minimum cluster size must be at least 0."
   = text "Minimum contig length must be at least 100" /\ minlength (toy_args [opt_i 0]) < 100)
  \/ (text "Minimum cluster size must be at least 0."
      = text "Zero or negative subprocesses requested."
      /\ subprocesses (toy_args [opt_i 0]) < 1)
  \/ (text "Minimum cluster size must be at least 0."
      = text "Minimum alignment score cannot be negative"
      /\ minascore (toy_args [opt_i 0]) < 0)
  \/ (text "Minimum cluster size must be at least 0."
      = Format "Minimum 1 epoch, not {}" [PyInt (nepochs (toy_args [opt_i 0]))]
      /\ nepochs (toy_args [opt_i 0]) < 1)
  \/ (text "Minimum cluster size must be at least 0."
      = Format "Minimum batchsize of 1, not {}" [PyInt (batchsize (toy_args [opt_i 0]))]
      /\ batchsize (toy_args [opt_i 0]) < 1)
  \/ (text "Minimum cluster size must be at least 0." = text "Capacity cannot be negative"
      /\ PrimFloat.ltb (capacity (toy_args [opt_i 0])) 0 = true)
  \/ (text "Minimum cluster size must be at least 0."
      = text "MSE ratio must be above 0 and below 1"
      /\ (PrimFloat.leb (mseratio (toy_args [opt_i 0])) 0 = true
          \/ PrimFloat.leb 1 (mseratio (toy_args [opt_i 0])) = true))
  \/ (text "Minimum cluster size must be at least 0."
      = text "Minimum cluster size must be at least 0."
      /\ minsize (toy_args [opt_i 0]) < 1).
Proof.
  apply (option_errors_name_the_violated_bound toy_env (toy_args [opt_i 0]) toy_disk).
  vm_compute. reflexivity.
Defined.

(** X3.  The BAM paths are checked in the order they were given: when the
    paths before them pass, the first BAM path that is not a regular file is
    the one [FileNotFoundError] reports, whatever comes after it and whatever
    the options are. *)
Theorem first_missing_bamfile_is_reported (env : Env) (args : Namespace) (d : fs)
    (before after : list string) (p : string) :
  OS.path_exists (outdir args) d = false ->
  Posixpath.dirname (outdir args) = ""
  \/ OS.path_isdir (Posixpath.dirname (outdir args)) d = true ->
  OS.path_isfile (fasta args) d = true ->
  bamfiles args = (before ++ p :: after)%list ->
  (forall q, In q before -> OS.path_isfile q d = true) ->
  OS.path_isfile p d = false ->
  result (validate env args d) = inl (FileNotFoundError p).
Proof.
  intros Hout Hpar Hfa Hbam Hbefore Hp.
  rewrite validate_checks; cbn [result]. unfold checks.
  rewrite Hout, Hfa. cbn [negb].
  replace (negb (String.eqb (Posixpath.dirname (outdir args)) "")
           && negb (OS.path_isdir (Posixpath.dirname (outdir args)) d)) with false.
  2: { destruct Hpar as [-> | ->]; [reflexivity|]. rewrite andb_false_r. reflexivity. }
  rewrite Hbam.
  replace (List.find (fun p0 => negb (OS.path_isfile p0 d)) (before ++ p :: after)%list)
    with (Some p); [reflexivity|].
  clear Hbam. induction before as [|q rest IH]; cbn [List.app List.find].
  - rewrite Hp. reflexivity.
  - rewrite (Hbefore q (or_introl eq_refl)). cbn [negb].
    apply IH. intros q' Hin. apply Hbefore. right. exact Hin.
Qed.

Lemma first_missing_bamfile_is_reported_witness :
  result (validate toy_env
            (default_namespace 4 "out" "contigs.fna" "sample.bam" ["gone.bam"; "lost.bam"])
            toy_disk)
  = inl (FileNotFoundError "gone.bam").
Proof.
  apply (first_missing_bamfile_is_reported toy_env
           (default_namespace 4 "out" "contigs.fna" "sample.bam" ["gone.bam"; "lost.bam"])
           toy_disk ["sample.bam"] ["lost.bam"] "gone.bam").
  - reflexivity.
  - left. reflexivity.
  - reflexivity.
  - reflexivity.
  - intros q [<-|[]]. reflexivity.
  - reflexivity.
Defined.

(** X4.  Where [os.cpu_count()] is [None], computing [DEFAULT_PROCESSES] raises
    [TypeError] before the arguments are looked at: every invocation fails
    with it, also one that gives [-p], and nothing is touched. *)
Theorem unknown_cpu_count_stops_every_run `{V : Vamb} (env : Env) (inv : invocation)
    (d : fs) :
  cpu_count env = None ->
  exists m, script env inv d = Run (inl (TypeError m)) d [].
Proof.
  intros Hcpu. unfold script, DEFAULT_PROCESSES. rewrite Hcpu, bind_lift.
  eexists. reflexivity.
Qed.

Lemma unknown_cpu_count_stops_every_run_witness :
  exists m, script (V:=toy_vamb 10 10 None) blind_env (CommandLine (toy_cli [opt_p 2]))
                   toy_disk
            = Run (inl (TypeError m)) toy_disk [].
Proof.
  apply (unknown_cpu_count_stops_every_run (V:=toy_vamb 10 10 None) blind_env
           (CommandLine (toy_cli [opt_p 2])) toy_disk).
  reflexivity.
Defined.

(** ** What a run of [main] shows *)

Section MoreMainProperties.

Context {V : Vamb}.
Variables (outdir fastapath : string) (bampaths : list string).
Variables (mincontiglength minalignscore subprocesses : Z).
Variables (nhiddens : list Z) (nlatent nepochs batchsize : Z) (cuda : bool).
Variables (capacity mseratio : float) (minclustersize maxclusters : Z).

Local Abbreviation run_main :=
  (main outdir fastapath bampaths mincontiglength minalignscore subprocesses
        nhiddens nlatent nepochs batchsize cuda capacity mseratio
        minclustersize maxclusters).

(** X5.  [main] returns only from a consistent run: the contigs were read,
    the coverage matrix was read and has as many rows as there are contig
    names, and no operation of the run raised. *)
Theorem main_returns_only_when_counts_match (d : fs) :
  result (run_main d) = inr tt ->
  no_call_raised (events (run_main d)) = true
  /\ exists tnfs contignames contiglengths rpkms,
       read_contigs fastapath mincontiglength = inr (tnfs, contignames, contiglengths)
       /\ read_bamfiles bampaths minalignscore mincontiglength subprocesses = inr rpkms
       /\ len_rpkms rpkms = length contignames.
Proof.
  unfold_stages. follow_run.
  all: intros H; try discriminate H.
  split; [reflexivity|].
  do 4 eexists. split; [reflexivity|]. split; [reflexivity|].
  apply Nat.eqb_eq. assumption.
Qed.

(** X6.  The log is written in one fixed order: the templates of the lines a
    run prints are an initial part of the fourteen templates of a complete
    log (two opening lines, three or four lines per stage with the four
    stage-duration lines in the order features, coverage, embedding,
    clustering, and the closing line), and all fourteen when [main] returns. *)
Theorem log_follows_the_template (d : fs) :
  map template (log_lines (events (run_main d))) `prefix_of` log_templates
  /\ (result (run_main d) = inr tt ->
      map template (log_lines (events (run_main d))) = log_templates).
Proof.
  unfold_stages. follow_run.
  all: split; [| first [discriminate | reflexivity]].
  all: unfold log_templates, log_lines; cbn.
  all: repeat (apply prefix_cons); try apply prefix_nil; reflexivity.
Qed.

(** X7.  The numbers in the log are those of the run: the line on processed
    bases gives what the array of contig lengths returned by [read_contigs]
    gives as its sum, and the number of its entries; the line on BAM files
    gives the number of BAM paths and
    the subprocess count; the line on clusters gives the number of contigs
    first and the number of bins second, which [write_clusters] returns the
    other way round. *)
Theorem logged_numbers_are_those_of_the_run (d : fs) :
  (forall a, In (Print (Format (tab ++ "Processed {} bases in {} contigs") a))
                (events (run_main d)) ->
     exists tnfs contignames contiglengths,
       read_contigs fastapath mincontiglength = inr (tnfs, contignames, contiglengths)
       /\ a = [PyInt (sum_contiglengths contiglengths);
               PyInt (Z.of_nat (length contiglengths))])
  /\ (forall a, In (Print (Format (tab ++ "Parsing {} BAM files with {} subprocesses.") a))
                   (events (run_main d)) ->
        a = [PyInt (Z.of_nat (length bampaths)); PyInt subprocesses])
  /\ (forall a, In (Print (Format (tab ++ "Clustered {} contigs in {} bins.") a))
                   (events (run_main d)) ->
        exists clusters clusternumber ncontigs,
          write_clusters (Posixpath.join outdir "clusters.tsv") clusters
                         maxclusters minclustersize = inr (clusternumber, ncontigs)
          /\ a = [PyInt ncontigs; PyInt clusternumber]).
Proof.
  unfold_stages. follow_run.
  all: split; [|split]; intros a H; cbn in H.
  all: repeat match type of H with
              | _ \/ _ => destruct H as [H|H]
              | False => contradiction
              | _ = _ => first [discriminate H | injection H as <-]
              end.
  all: eauto 6.
Qed.

End MoreMainProperties.

(** ** What a run of the program does outside *)


Lemma append_to_itself (a s : string) : a ++ s = a -> s = "".
Proof.
  induction a as [|c a IH]; cbn; [auto|]. intros [= H]. auto.
Qed.

Lemma join_is_another_path (a b : string) :
  b <> "" -> Posixpath.startswith Posixpath.sep b = false -> Posixpath.join a b <> a.
Proof.
  intros Hb Hs. unfold Posixpath.join. rewrite Hs.
  destruct (String.eqb a "" || Posixpath.endswith Posixpath.sep a); intros H.
  - apply Hb. exact (append_to_itself _ _ H).
  - apply append_to_itself in H. discriminate H.
Qed.

Lemma open_w_returns (p : string) (d g : fs) :
  OS.open_w p d = inr g -> g = <[p := File]> d.
Proof.
  unfold OS.open_w. destruct (OS.path_isdir p d); [discriminate|].
  destruct (OS.parent_error p d); congruence.
Qed.

Lemma open_rb_returns (p : string) (d g : fs) :
  OS.open_rb p d = inr g -> g = d.
Proof. unfold OS.open_rb. destruct (d !! p) as [[|]|]; congruence. Qed.

Lemma mkdir_returns (p : string) (d g : fs) :
  OS.mkdir p d = inr g -> g = <[p := Dir]> d.
Proof.
  unfold OS.mkdir. destruct (OS.path_exists p d); [discriminate|].
  destruct (OS.parent_error p d); congruence.
Qed.

(** X9.  The first operation of the program is [os.mkdir] on the output
    directory.  If it returns, the output directory is a directory when the
    run ends, however the run ends: nothing the program does afterwards
    replaces it.  After a run that returns, the log and the cluster table
    are files. *)
Theorem output_directory_stays_once_made `{V : Vamb} (args : Namespace) (d : fs) :
  (exists outcome,
     head (events (run_program args d)) = Some (Call (CallMkdir (outdir args)) outcome))
  /\ (In (Call (CallMkdir (outdir args)) None) (events (run_program args d)) ->
      disk (run_program args d) !! outdir args = Some Dir)
  /\ (result (run_program args d) = inr tt ->
      disk (run_program args d) !! Posixpath.join (outdir args) "log.txt" = Some File
      /\ disk (run_program args d) !! Posixpath.join (outdir args) "clusters.tsv"
         = Some File).
Proof.
  assert (Hlog : Posixpath.join (outdir args) "log.txt" <> outdir args)
    by (apply join_is_another_path; [discriminate | reflexivity]).
  assert (Hcl : Posixpath.join (outdir args) "clusters.tsv" <> outdir args)
    by (apply join_is_another_path; [discriminate | reflexivity]).
  unfold_stages. follow_run.
  all: repeat match goal with
              | H : OS.open_w _ _ = inr _ |- _ => apply open_w_returns in H; subst
              | H : OS.open_rb _ _ = inr _ |- _ => apply open_rb_returns in H; subst
              | H : OS.mkdir _ _ = inr _ |- _ => apply mkdir_returns in H; subst
              end.
  all: split; [eexists; reflexivity|].
  all: split; [intros Hin | first [discriminate | intros _]].
  all: try (cbn in Hin; destruct Hin as [Hin|[]]; discriminate Hin).
  all: rewrite ?lookup_insert_ne by assumption; try apply lookup_insert_eq.
  split.
  - rewrite lookup_insert. destruct (decide _); [reflexivity|]. apply lookup_insert_eq.
  - apply lookup_insert_eq.
Qed.

(** ** The two floating-point options *)

Lemma SFcompare_finite_same (s : bool) (m : positive) (e : Z) :
  SFcompare (S754_finite s m e) (S754_finite s m e) = Some Eq.
Proof.
  cbn. destruct s; rewrite Z.compare_refl, Pos.compare_cont_refl; reflexivity.
Qed.

Lemma SFeqb_self_false (a : spec_float) : SFeqb a a = false -> a = S754_nan.
Proof.
  unfold SFeqb. destruct a as [s|s| |s m e]; try reflexivity.
  - cbn. discriminate.
  - destruct s; cbn; discriminate.
  - rewrite SFcompare_finite_same. discriminate.
Qed.

Lemma SFcompare_flip (a b : spec_float) :
  SFcompare b a = option_map CompOpp (SFcompare a b).
Proof.
  destruct a as [sa|sa| |sa ma ea], b as [sb|sb| |sb mb eb];
    try destruct sa; try destruct sb; try reflexivity.
  all: cbn; rewrite (Z.compare_antisym ea eb); destruct (ea ?= eb); cbn; try reflexivity.
  all: change (Pos.compare_cont Eq mb ma) with (Pos.compare mb ma);
       change (Pos.compare_cont Eq ma mb) with (Pos.compare ma mb);
       rewrite (Pos.compare_antisym ma mb).
  all: destruct (Pos.compare ma mb); reflexivity.
Qed.

Lemma leb_false_cases (x y : float) :
  PrimFloat.leb x y = false ->
  PrimFloat.ltb y x = true \/ PrimFloat.is_nan x = true \/ PrimFloat.is_nan y = true.
Proof.
  unfold PrimFloat.is_nan.
  rewrite FloatAxioms.leb_spec, FloatAxioms.ltb_spec, !FloatAxioms.eqb_spec. unfold SFleb, SFltb.
  rewrite (SFcompare_flip (Prim2SF x) (Prim2SF y)).
  destruct (SFcompare (Prim2SF x) (Prim2SF y)) as [[| |]|] eqn:Hc; cbn; try discriminate.
  - auto.
  - intros _. right.
    destruct (Prim2SF x) as [sx|sx| |sx mx ex] eqn:Hx; [| |left; reflexivity|];
      (destruct (Prim2SF y) as [sy|sy| |sy my ey] eqn:Hy;
       [| |right; reflexivity|]; cbn in Hc; discriminate Hc).
Qed.

Lemma ltb_false_cases (x y : float) :
  PrimFloat.ltb x y = false ->
  PrimFloat.leb y x = true \/ PrimFloat.is_nan x = true \/ PrimFloat.is_nan y = true.
Proof.
  unfold PrimFloat.is_nan.
  rewrite FloatAxioms.leb_spec, FloatAxioms.ltb_spec, !FloatAxioms.eqb_spec. unfold SFleb, SFltb.
  rewrite (SFcompare_flip (Prim2SF x) (Prim2SF y)).
  destruct (SFcompare (Prim2SF x) (Prim2SF y)) as [[| |]|] eqn:Hc; cbn; try discriminate.
  - auto.
  - auto.
  - intros _. right.
    destruct (Prim2SF x) as [sx|sx| |sx mx ex] eqn:Hx; [| |left; reflexivity|];
      (destruct (Prim2SF y) as [sy|sy| |sy my ey] eqn:Hy;
       [| |right; reflexivity|]; cbn in Hc; discriminate Hc).
Qed.

Lemma nan_compares_false (x y : float) :
  PrimFloat.is_nan x = true ->
  PrimFloat.leb x y = false /\ PrimFloat.leb y x = false /\ PrimFloat.ltb x y = false.
Proof.
  unfold PrimFloat.is_nan. rewrite !FloatAxioms.leb_spec, FloatAxioms.ltb_spec, FloatAxioms.eqb_spec.
  intros H. apply negb_true_iff in H. apply SFeqb_self_false in H. rewrite H.
  unfold SFleb, SFltb. repeat split; try reflexivity.
  destruct (Prim2SF y); reflexivity.
Qed.

(** X10.  The checks confine the ratio to the open interval from 0 to 1 and
    the capacity to the non-negative numbers only up to NaN: when they accept,
    the ratio is above 0 and below 1 or is not a number, and the capacity is
    at least 0 or is not a number. *)
Theorem accepted_floats_are_in_range_or_nan (env : Env) (args : Namespace) (d : fs) :
  result (validate env args d) = inr tt ->
  (PrimFloat.ltb 0 (mseratio args) = true /\ PrimFloat.ltb (mseratio args) 1 = true
   \/ PrimFloat.is_nan (mseratio args) = true)
  /\ (PrimFloat.leb 0 (capacity args) = true \/ PrimFloat.is_nan (capacity args) = true).
Proof.
  rewrite validate_checks; cbn [result]. unfold checks, no_attribute.
  destruct (OS.path_exists (outdir args) d); [discriminate|].
  destruct (negb _ && negb _); [discriminate|].
  destruct (negb (OS.path_isfile (fasta args) d)); [discriminate|].
  destruct (List.find _ (bamfiles args)); [discriminate|].
  destruct (minlength args <? 100); [discriminate|].
  destruct (subprocesses args <? 1); [discriminate|].
  destruct (minascore args <? 0); [discriminate|].
  destruct (existsb _ (nhiddens args)); [discriminate|].
  destruct (nlatent args <? 1); [discriminate|].
  destruct (nepochs args <? 1); [discriminate|].
  destruct (batchsize args <? 1); [discriminate|].
  destruct (PrimFloat.ltb (capacity args) 0) eqn:Hcap; [discriminate|].
  destruct (PrimFloat.leb (mseratio args) 0) eqn:Hlow; [discriminate|].
  destruct (PrimFloat.leb 1 (mseratio args)) eqn:Hhigh; [discriminate|].
  intros _. split.
  - destruct (leb_false_cases _ _ Hlow) as [H0|[Hn|Hn]]; [| right; exact Hn | discriminate Hn].
    destruct (leb_false_cases _ _ Hhigh) as [H1|[Hn|Hn]];
      [left; split; assumption | discriminate Hn | right; exact Hn].
  - destruct (ltb_false_cases _ _ Hcap) as [H0|[Hn|Hn]];
      [left; exact H0 | right; exact Hn | discriminate Hn].
Qed.

(** X11.  A ratio or a capacity that is not a number is not caught by its
    check: with a NaN ratio the checks never raise the error about the ratio,
    and with a NaN capacity never the error about the capacity. *)
Theorem nan_passes_the_float_checks (env : Env) (args : Namespace) (d : fs) :
  (PrimFloat.is_nan (mseratio args) = true ->
   result (validate env args d)
   <> inl (ArgumentTypeError (text "MSE ratio must be above 0 and below 1")))
  /\ (PrimFloat.is_nan (capacity args) = true ->
      result (validate env args d)
      <> inl (ArgumentTypeError (text "Capacity cannot be negative"))).
Proof.
  rewrite validate_checks; cbn [result]. unfold checks, no_attribute. split; intros Hnan.
  - destruct (nan_compares_false (mseratio args) 0 Hnan) as (Hlow & _ & _).
    destruct (nan_compares_false (mseratio args) 1 Hnan) as (_ & Hhigh & _).
    rewrite Hlow, Hhigh. cbn [orb].
    repeat match goal with
           | |- context [if ?b then _ else _] => destruct b; try discriminate
           | |- context [match ?o with Some _ => _ | None => _ end] =>
               destruct o; try discriminate
           end.
  - destruct (nan_compares_false (capacity args) 0 Hnan) as (_ & _ & Hcap).
    rewrite Hcap.
    repeat match goal with
           | |- context [if ?b then _ else _] => destruct b; try discriminate
           | |- context [match ?o with Some _ => _ | None => _ end] =>
               destruct o; try discriminate
           end.
Qed.
(** ** Where the artifacts lie *)

Lemma append_empty (s : string) : "" ++ s = s.
Proof. reflexivity. Qed.

Lemma append_cons (c : ascii) (a s : string) : String c a ++ s = String c (a ++ s).
Proof. reflexivity. Qed.

Lemma rfind_cons (c a : ascii) (s : string) :
  Posixpath.rfind c (String a s)
  = if 0 <=? Posixpath.rfind c s then Posixpath.rfind c s + 1
    else if Ascii.eqb a c then 0 else -1.
Proof. reflexivity. Qed.

Lemma rfind_after_join (a b : string) :
  bare_name b = true ->
  Posixpath.rfind Posixpath.sep (a ++ String Posixpath.sep b) = Z.of_nat (String.length a).
Proof.
  intros Hb. induction a as [|c a IH]; cbn [String.length];
    rewrite ?append_empty, ?append_cons, rfind_cons.
  - rewrite (rfind_bare_name b Hb). reflexivity.
  - rewrite IH.
    replace (0 <=? Z.of_nat (String.length a)) with true by (symmetry; apply Z.leb_le; lia).
    lia.
Qed.

Lemma substring_of_join (a r : string) :
  substring 0 (S (String.length a)) (a ++ String Posixpath.sep r) = a ++ String Posixpath.sep "".
Proof.
  induction a as [|c a IH]; cbn [String.length];
    rewrite ?append_empty, ?append_cons.
  - destruct r; reflexivity.
  - cbn [substring]. rewrite IH. reflexivity.
Qed.

Lemma not_only_separators (a : string) (n : nat) :
  a <> "" -> Posixpath.endswith Posixpath.sep a = false ->
  a ++ String Posixpath.sep "" <> Posixpath.replicate_char Posixpath.sep n.
Proof.
  revert n. induction a as [|c a IH]; intros n Ha He; [congruence|].
  destruct n as [|n]; [discriminate|].
  rewrite append_cons. cbn [Posixpath.replicate_char]. intros [= Hc Hrest].
  destruct a as [|c' a'].
  - cbn in He. subst c. discriminate He.
  - apply (IH n); [discriminate | exact He | exact Hrest].
Qed.

Lemma rstrip_after_join (a : string) :
  a <> "" -> Posixpath.endswith Posixpath.sep a = false ->
  Posixpath.rstrip Posixpath.sep (a ++ String Posixpath.sep "") = a.
Proof.
  induction a as [|c a IH]; intros Ha He; [congruence|].
  destruct a as [|c' a'].
  - cbn in He. rewrite append_cons, append_empty. cbn. rewrite He. reflexivity.
  - rewrite append_cons. cbn [Posixpath.rstrip].
    rewrite IH; [reflexivity | discriminate | exact He].
Qed.

(** X12.  With an output directory that is not empty and does not end in a
    separator, a file joined to it under a bare name lies directly in it:
    [os.path.dirname] of the joined path is the output directory again.  This
    holds for each of the six artifact names. *)
Theorem artifacts_lie_in_the_output_directory (outdir name : string) :
  outdir <> "" ->
  Posixpath.endswith Posixpath.sep outdir = false ->
  name <> "" ->
  bare_name name = true ->
  Posixpath.dirname (Posixpath.join outdir name) = outdir.
Proof.
  intros Ho He Hn Hb.
  assert (Hjoin : Posixpath.join outdir name = outdir ++ String Posixpath.sep name).
  { unfold Posixpath.join. rewrite He.
    destruct name as [|c r]; [congruence|]. cbn in Hb |- *.
    apply andb_prop in Hb as [Hc _]. apply negb_true_iff in Hc. rewrite Hc.
    destruct (String.eqb_spec outdir ""); [congruence | reflexivity]. }
  rewrite Hjoin. unfold Posixpath.dirname.
  rewrite (rfind_after_join outdir name Hb).
  replace (Z.to_nat (Z.of_nat (String.length outdir) + 1)) with (S (String.length outdir))
    by lia.
  rewrite substring_of_join.
  destruct (String.eqb_spec (outdir ++ String Posixpath.sep "") "") as [Hempty|_].
  { destruct outdir; discriminate Hempty. }
  destruct (String.eqb_spec (outdir ++ String Posixpath.sep "")
              (Posixpath.replicate_char Posixpath.sep
                 (String.length (outdir ++ String Posixpath.sep "")))) as [Hall|_].
  { exfalso. exact (not_only_separators outdir _ Ho He Hall). }
  cbn [negb andb]. apply rstrip_after_join; assumption.
Qed.

Lemma artifacts_lie_in_the_output_directory_witness :
  Posixpath.dirname (Posixpath.join "runs/out" "clusters.tsv") = "runs/out".
Proof.
  apply (artifacts_lie_in_the_output_directory "runs/out" "clusters.tsv").
  - discriminate.
  - reflexivity.
  - discriminate.
  - reflexivity.
Defined.

(** ** Concrete runs, continued *)

Lemma main_returns_only_when_counts_match_witness :
  no_call_raised (events (toy_main (toy_vamb 10 10 None) toy_outdisk)) = true
  /\ exists (tnfs : nat) (contignames : list string) (contiglengths : list Z) (rpkms : nat),
       read_contigs (Vamb:=toy_vamb 10 10 None) "contigs.fna" 100
       = inr (tnfs, contignames, contiglengths)
       /\ read_bamfiles (Vamb:=toy_vamb 10 10 None) ["sample.bam"] 50 100 4 = inr rpkms
       /\ rpkms = length contignames.
Proof.
  apply (main_returns_only_when_counts_match (V:=toy_vamb 10 10 None)
           "out" "contigs.fna" ["sample.bam"] 100 50 4 [325; 325; 325] 40 400 128
           false 1000%float 0x1.999999999999ap-3%float 1 (-1) toy_outdisk).
  vm_compute. reflexivity.
Defined.

Lemma output_directory_stays_once_made_witness :
  disk (run_program (V:=toy_vamb 10 8 None) (toy_args []) toy_disk) !! "out" = Some Dir.
Proof.
  apply (proj1 (proj2 (output_directory_stays_once_made (V:=toy_vamb 10 8 None)
                         (toy_args []) toy_disk))).
  vm_compute. left. reflexivity.
Defined.

Lemma accepted_floats_are_in_range_or_nan_witness :
  (PrimFloat.ltb 0 (mseratio (toy_args [opt_r 0.5%float])) = true
   /\ PrimFloat.ltb (mseratio (toy_args [opt_r 0.5%float])) 1 = true
   \/ PrimFloat.is_nan (mseratio (toy_args [opt_r 0.5%float])) = true)
  /\ (PrimFloat.leb 0 (capacity (toy_args [opt_r 0.5%float])) = true
      \/ PrimFloat.is_nan (capacity (toy_args [opt_r 0.5%float])) = true).
Proof.
  apply (accepted_floats_are_in_range_or_nan toy_env (toy_args [opt_r 0.5%float]) toy_disk).
  vm_compute. reflexivity.
Defined.

Lemma nan_passes_the_float_checks_witness :
  result (validate toy_env (toy_args [opt_r PrimFloat.nan]) toy_disk)
  <> inl (ArgumentTypeError (text "MSE ratio must be above 0 and below 1")).
Proof.
  apply (proj1 (nan_passes_the_float_checks toy_env (toy_args [opt_r PrimFloat.nan])
                  toy_disk)).
  reflexivity.
Defined.
